(** * Image Info Extractor: page rasterisation, detection, cropping, explanation

    A shallow embedding of the scan pipeline of the application:

    - [services/gemini]: [detectVisualElements], [explainExtractedImage];
    - [App]: [getPageImage], [handleScan], [handleReset];
    - [components/LivePreview]: what the preview shows of the session state.

    JavaScript numbers are IEEE 754 binary64 values, here Rocq's primitive
    floats, whose [+], [-], [*], [/] round exactly as the ones of the
    language.  Values that come back from [JSON.parse] are untyped, so the
    cropping loop is embedded over [JSValue] with the runtime's own checks
    (iteration, property access, numeric coercion); the TypeScript interface
    [VisualElement] is the well-typed fragment of it.

    The browser objects the code talks to (files, canvases, images, data
    URLs, the PDF engine) are modelled by the values that determine them: a
    canvas is its size and the list of drawing calls made since it was last
    reset, a data URL is what it was made from. *)

From Stdlib Require Import ZArith List String Ascii Bool Lia DecimalString DecimalNat.
From Stdlib Require Import PrimFloat FloatOps SpecFloat Uint63.
Import ListNotations.

Set Warnings "-inexact-float,-register-all".
Local Open Scope string_scope.
Local Open Scope Z_scope.

(** ** Outcomes of (possibly asynchronous) JavaScript computations *)

(** An [await]ed computation settles with a value, settles with an exception
    (a rejected promise or a [throw]), or never settles. *)
Inductive JSError : Type :=
| Error (message : string)
| TypeError (message : string)
| SyntaxError (message : string).

Inductive Outcome (A : Type) : Type :=
| Done (a : A)
| Thrown (e : JSError)
| Pending.
Arguments Done {A} a.
Arguments Thrown {A} e.
Arguments Pending {A}.

Definition obind {A B} (o : Outcome A) (k : A -> Outcome B) : Outcome B :=
  match o with
  | Done a => k a
  | Thrown e => Thrown e
  | Pending => Pending
  end.

Declare Scope outcome_scope.
Delimit Scope outcome_scope with outcome.
Notation "x <- c ;; k" := (obind c (fun x => k))
  (at level 61, c at next level, right associativity) : outcome_scope.
Notation "' p <- c ;; k" := (obind c (fun x => let 'p := x in k))
  (at level 61, p pattern, c at next level, right associativity) : outcome_scope.

(** ** JavaScript values *)

Inductive JSValue : Type :=
| JUndefined
| JNull
| JBool (b : bool)
| JNumber (n : float)
| JString (s : string)
| JArray (elems : list JSValue)
| JObject (props : list (string * JSValue)).

(** [GetIterator]: arrays iterate over their elements, strings over their
    characters; nothing else that [JSON.parse] can return is iterable. *)
Definition GetIterator (v : JSValue) : Outcome (list JSValue) :=
  match v with
  | JArray elems => Done elems
  | JString s =>
      Done (map (fun c => JString (String c EmptyString)) (list_ascii_of_string s))
  | _ => Thrown (TypeError "is not iterable")
  end.

(** Own data property of a parsed object; a key given twice keeps its last
    value, as [JSON.parse] builds it. *)
Definition own_property (key : string) (props : list (string * JSValue)) : JSValue :=
  match find (fun kv => String.eqb key (fst kv)) (rev props) with
  | Some (_, v) => v
  | None => JUndefined
  end.

(** [v.key] for the property names the code reads ([label], [box_2d],
    [description]): reading from [undefined] or [null] throws, primitives and
    arrays have no such property. *)
Definition Get (v : JSValue) (key : string) : Outcome JSValue :=
  match v with
  | JUndefined | JNull => Thrown (TypeError "Cannot read properties of undefined or null")
  | JObject props => Done (own_property key props)
  | _ => Done JUndefined
  end.

(** [const [a, b, c, d] = v]: missing positions are [undefined]. *)
Definition destructure4 (v : JSValue) : Outcome (JSValue * JSValue * JSValue * JSValue) :=
  (elems <- GetIterator v ;;
   Done (nth 0 elems JUndefined, nth 1 elems JUndefined,
         nth 2 elems JUndefined, nth 3 elems JUndefined))%outcome.

(** The number a page or image dimension (an unsigned long) reads as. *)
Definition Number_of_ulong (z : Z) : float := PrimFloat.of_uint63 (Uint63.of_Z z).

(** WebIDL conversion of a number to [unsigned long]: not finite gives 0,
    otherwise truncate toward zero and reduce modulo 2^32. *)
Definition ToUnsignedLong (v : float) : Z :=
  match Prim2SF v with
  | S754_finite s m e =>
      let a := if 0 <=? e then Z.pos m * 2 ^ e else Z.pos m / 2 ^ (- e) in
      (if s then - a else a) mod 2 ^ 32
  | _ => 0
  end.

(** Setting a reflected [unsigned long] attribute: a value above 2^31-1 is
    replaced by the attribute's default. *)
Definition reflected_dimension (default : Z) (v : float) : Z :=
  let n := ToUnsignedLong v in
  if n <=? 2147483647 then n else default.

(** ** Files, PDF documents, canvases, images *)

Record PdfPage : Type := {
  page_width : float;    (* width of the page in PDF units *)
  page_height : float;
  page_renders : bool    (* whether the engine renders it without error *)
}.

Inductive FileContent : Type :=
| ImageBytes (width height : Z)     (* bytes that decode to an image of this size *)
| PdfBytes (pages : list PdfPage)   (* bytes that the PDF engine opens *)
| OtherBytes.

Module File.
Record t : Type := {
  type : string;          (* MIME type reported by the browser *)
  content : FileContent;
  readable : bool         (* whether reading the file succeeds *)
}.
End File.

Record Viewport : Type := { viewport_width : float; viewport_height : float }.

Inductive DataURL : Type :=
| ReaderResult (f : File.t)
    (* FileReader.readAsDataURL(f) *)
| CanvasDataURL (width height : Z) (paints : list Paint) (type : string) (quality : float)
    (* canvas.toDataURL(type, quality) *)
with Paint : Type :=
| ClearRect (x y w h : float)
| DrawImage (src : DataURL) (naturalWidth naturalHeight : Z)
            (sx sy sw sh dx dy dw dh : float)
| RenderPage (page : PdfPage) (viewport : Viewport).

Module Canvas.
Record t : Type := { width : Z; height : Z; paints : list Paint }.
End Canvas.

Module HTMLImage.
Record t : Type := { src : DataURL; width : Z; height : Z }.
End HTMLImage.

(** [document.createElement('canvas')]: 300 x 150, blank. *)
Definition createCanvas : Canvas.t :=
  {| Canvas.width := 300; Canvas.height := 150; Canvas.paints := [] |}.

(** [canvas.width = v] and [canvas.height = v]: the bitmap is reset. *)
Definition set_width (c : Canvas.t) (v : float) : Canvas.t :=
  {| Canvas.width := reflected_dimension 300 v;
     Canvas.height := Canvas.height c;
     Canvas.paints := [] |}.

Definition set_height (c : Canvas.t) (v : float) : Canvas.t :=
  {| Canvas.width := Canvas.width c;
     Canvas.height := reflected_dimension 150 v;
     Canvas.paints := [] |}.

(** A call on the canvas's 2D context, recorded after the earlier ones.  A
    fresh canvas element always hands out a 2D context, so the calls the
    code makes through [ctx?.] are made. *)
Definition paint (c : Canvas.t) (p : Paint) : Canvas.t :=
  {| Canvas.width := Canvas.width c;
     Canvas.height := Canvas.height c;
     Canvas.paints := Canvas.paints c ++ [p] |}.

Definition clearRect (c : Canvas.t) (x y w h : float) : Canvas.t :=
  paint c (ClearRect x y w h).

Definition drawImage (c : Canvas.t) (img : HTMLImage.t)
    (sx sy sw sh dx dy dw dh : float) : Canvas.t :=
  paint c (DrawImage (HTMLImage.src img) (HTMLImage.width img) (HTMLImage.height img)
                     sx sy sw sh dx dy dw dh).

Definition toDataURL (c : Canvas.t) (type : string) (quality : float) : DataURL :=
  CanvasDataURL (Canvas.width c) (Canvas.height c) (Canvas.paints c) type quality.

(** The size an image element decodes [src] to, if it decodes at all. *)
Definition decoded_size (src : DataURL) : option (Z * Z) :=
  match src with
  | ReaderResult f =>
      match File.content f with
      | ImageBytes w h => Some (w, h)
      | _ => None
      end
  | CanvasDataURL w h _ _ _ =>
      if (0 <? w) && (0 <? h) then Some (w, h) else None
  end.

(** [img.src = src; await new Promise(r => img.onload = r)]: there is no
    [onerror] handler, so an image that does not decode is waited for
    forever. *)
Definition load_image (src : DataURL) : Outcome HTMLImage.t :=
  match decoded_size src with
  | Some (w, h) =>
      Done {| HTMLImage.src := src; HTMLImage.width := w; HTMLImage.height := h |}
  | None => Pending
  end.

(** ** Detections and extracted items *)

Module VisualElement.
(** The TypeScript interface: [box_2d] is [ymin, xmin, ymax, xmax]. *)
Record t : Type := {
  label : string;
  box_2d : float * float * float * float;
  description : string
}.
End VisualElement.

Module ExtractedItem.
(** [label] and [description] are copied from the detection unchecked, so
    at run time they are whatever the parsed response held. *)
Record t : Type := {
  id : string;
  label : JSValue;
  dataUrl : DataURL;
  description : JSValue
}.
End ExtractedItem.

(** A well-typed detection as the value [JSON.parse] returns for it. *)
Definition js_of_VisualElement (d : VisualElement.t) : JSValue :=
  let '(ymin, xmin, ymax, xmax) := VisualElement.box_2d d in
  JObject [("label", JString (VisualElement.label d));
           ("box_2d", JArray [JNumber ymin; JNumber xmin; JNumber ymax; JNumber xmax]);
           ("description", JString (VisualElement.description d))].

Definition js_of_detections (ds : list VisualElement.t) : JSValue :=
  JArray (map js_of_VisualElement ds).

(** ** The cropping loop of [handleScan] *)

Section Cropping.

(** [ToNumber] on strings and objects (the language's own parsing of
    numeric strings and its primitive conversion of objects). *)
Variable ToNumber_ext : JSValue -> float.

(** The successive results of [crypto.randomUUID()]. *)
Variable randomUUID : nat -> string.

Definition ToNumber (v : JSValue) : float :=
  match v with
  | JUndefined => nan
  | JNull => 0%float
  | JBool true => 1%float
  | JBool false => 0%float
  | JNumber n => n
  | JString _ | JArray _ | JObject _ => ToNumber_ext v
  end.

(** One iteration of [for (const det of detections)]. *)
Definition crop_step (img : HTMLImage.t) (det : JSValue) (canvas : Canvas.t) (n : nat)
    : Outcome (ExtractedItem.t * Canvas.t) :=
  (box_2d <- Get det "box_2d" ;;
   '(ymin, xmin, ymax, xmax) <- destructure4 box_2d ;;
   let left := (ToNumber xmin / 1000 * Number_of_ulong (HTMLImage.width img))%float in
   let top := (ToNumber ymin / 1000 * Number_of_ulong (HTMLImage.height img))%float in
   let width :=
     ((ToNumber xmax - ToNumber xmin) / 1000 * Number_of_ulong (HTMLImage.width img))%float in
   let height :=
     ((ToNumber ymax - ToNumber ymin) / 1000 * Number_of_ulong (HTMLImage.height img))%float in
   let canvas := set_width canvas width in
   let canvas := set_height canvas height in
   let canvas := clearRect canvas 0 0 width height in
   let canvas := drawImage canvas img left top width height 0 0 width height in
   label <- Get det "label" ;;
   description <- Get det "description" ;;
   Done ({| ExtractedItem.id := randomUUID n;
            ExtractedItem.label := label;
            ExtractedItem.dataUrl := toDataURL canvas "image/jpeg" 0.9;
            ExtractedItem.description := description |},
         canvas))%outcome.

(** The loop: [items.push] appends; the one canvas is reused.  The count of
    identifiers drawn so far is returned whatever the outcome. *)
Fixpoint crop_loop (img : HTMLImage.t) (dets : list JSValue)
    (items : list ExtractedItem.t) (canvas : Canvas.t) (n : nat)
    : Outcome (list ExtractedItem.t * Canvas.t) * nat :=
  match dets with
  | [] => (Done (items, canvas), n)
  | det :: rest =>
      match crop_step img det canvas n with
      | Done (item, canvas') => crop_loop img rest (items ++ [item]) canvas' (S n)
      | Thrown e => (Thrown e, n)
      | Pending => (Pending, n)
      end
  end.

(** Lines 72-96 of [handleScan]: fresh [items], fresh canvas, the loop. *)
Definition extract_items (img : HTMLImage.t) (detections : JSValue) (n : nat)
    : Outcome (list ExtractedItem.t) * nat :=
  let items := [] in
  let canvas := createCanvas in
  match GetIterator detections with
  | Done dets =>
      let '(r, n') := crop_loop img dets items canvas n in
      (obind r (fun ic => Done (fst ic)), n')
  | Thrown e => (Thrown e, n)
  | Pending => (Pending, n)
  end.

End Cropping.

(** A box the detector should not return: [xmax < xmin] or [ymax < ymin]. *)
Definition malformed (d : VisualElement.t) : bool :=
  let '(ymin, xmin, ymax, xmax) := VisualElement.box_2d d in
  (xmax <? xmin)%float || (ymax <? ymin)%float.

Definition outcome_map {A B} (f : A -> B) (o : Outcome A) : Outcome B :=
  obind o (fun a => Done (f a)).

(** The crops of a run of the loop, identifiers left out. *)
Definition crops (r : Outcome (list ExtractedItem.t) * nat) : Outcome (list DataURL) :=
  outcome_map (map ExtractedItem.dataUrl) (fst r).

(** What two runs of the loop are compared on: the crops, not the
    identifiers. *)
Definition same_crops (r1 r2 : Outcome (list ExtractedItem.t * Canvas.t)) : Prop :=
  outcome_map (fun ic => map ExtractedItem.dataUrl (fst ic)) r1
  = outcome_map (fun ic => map ExtractedItem.dataUrl (fst ic)) r2.

(** The item the loop builds from a well-typed detection, and the items it
    builds from a list of them (lemma [crop_loop_well_typed]). *)
Definition item_of (id : string) (img : HTMLImage.t) (d : VisualElement.t)
    : ExtractedItem.t :=
  let '(ymin, xmin, ymax, xmax) := VisualElement.box_2d d in
  let pageWidth := Number_of_ulong (HTMLImage.width img) in
  let pageHeight := Number_of_ulong (HTMLImage.height img) in
  let left := (xmin / 1000 * pageWidth)%float in
  let top := (ymin / 1000 * pageHeight)%float in
  let width := ((xmax - xmin) / 1000 * pageWidth)%float in
  let height := ((ymax - ymin) / 1000 * pageHeight)%float in
  {| ExtractedItem.id := id;
     ExtractedItem.label := JString (VisualElement.label d);
     ExtractedItem.dataUrl :=
       CanvasDataURL (reflected_dimension 300 width) (reflected_dimension 150 height)
         [ClearRect 0 0 width height;
          DrawImage (HTMLImage.src img) (HTMLImage.width img) (HTMLImage.height img)
                    left top width height 0 0 width height]
         "image/jpeg" 0.9;
     ExtractedItem.description := JString (VisualElement.description d) |}.

Fixpoint items_of (randomUUID : nat -> string) (img : HTMLImage.t) (n : nat)
    (ds : list VisualElement.t) : list ExtractedItem.t :=
  match ds with
  | [] => []
  | d :: rest => item_of (randomUUID n) img d :: items_of randomUUID img (S n) rest
  end.

(** ** The remote inference service and the environment *)

(** The base64 payload of a data URL: [dataUrl.split(',')[1]]. *)
Inductive Base64 : Type := Base64Of (u : DataURL).

Inductive Schema : Type :=
| SchemaString
| SchemaNumber
| SchemaArray (items : Schema)
| SchemaObject (properties : list (string * Schema)) (required : list string).

Module Request.
(** The argument of [ai.models.generateContent]. *)
Record t : Type := {
  model : string;
  text : string;                  (* the prompt part *)
  data : Base64;                  (* inlineData.data *)
  mimeType : string;              (* inlineData.mimeType *)
  responseMimeType : option string;
  responseSchema : option Schema
}.
End Request.

Module Env.
(** What a run depends on outside the code. *)
Record t : Type := {
  (* the settled [generateContent] promise: [response.text], a rejection,
     or no answer at all *)
  generateContent : Request.t -> Outcome (option string);
  (* [JSON.parse]: [None] when it throws a SyntaxError *)
  JSON_parse : string -> option JSValue;
  ToNumber_ext : JSValue -> float;
  randomUUID : nat -> string;
  (* whether [window.pdfjsLib] is defined *)
  pdfjsLib : bool
}.
End Env.

(** ** The session: React state and the journal of effects *)

Module AppState.
(** The four [useState] cells of [App]. *)
Record t : Type := {
  isGenerating : bool;
  originalImage : option DataURL;
  extractedItems : list ExtractedItem.t;
  showPreview : bool
}.
End AppState.

Inductive Event : Type :=
| SetIsGenerating (b : bool)
| SetOriginalImage (v : option DataURL)
| SetExtractedItems (v : list ExtractedItem.t)
| SetShowPreview (b : bool)
| Rasterize (file : File.t) (pageNum : Z)       (* [getPageImage] is entered *)
| GenerateContent (request : Request.t)         (* a remote call is issued *)
| ConsoleError (what : string) (error : JSError)
| Alert (message : string).

Module Session.
Record t : Type := {
  react : AppState.t;
  journal : list Event;     (* oldest first *)
  uuids : nat               (* identifiers drawn so far *)
}.
End Session.

(** The effect of one event on the React state. *)
Definition apply_event (st : AppState.t) (ev : Event) : AppState.t :=
  match ev with
  | SetIsGenerating b =>
      {| AppState.isGenerating := b;
         AppState.originalImage := AppState.originalImage st;
         AppState.extractedItems := AppState.extractedItems st;
         AppState.showPreview := AppState.showPreview st |}
  | SetOriginalImage v =>
      {| AppState.isGenerating := AppState.isGenerating st;
         AppState.originalImage := v;
         AppState.extractedItems := AppState.extractedItems st;
         AppState.showPreview := AppState.showPreview st |}
  | SetExtractedItems v =>
      {| AppState.isGenerating := AppState.isGenerating st;
         AppState.originalImage := AppState.originalImage st;
         AppState.extractedItems := v;
         AppState.showPreview := AppState.showPreview st |}
  | SetShowPreview b =>
      {| AppState.isGenerating := AppState.isGenerating st;
         AppState.originalImage := AppState.originalImage st;
         AppState.extractedItems := AppState.extractedItems st;
         AppState.showPreview := b |}
  | Rasterize _ _ | GenerateContent _ | ConsoleError _ _ | Alert _ => st
  end.


(** Computations over the session. *)
Definition M (A : Type) : Type := Session.t -> Outcome A * Session.t.

Definition ret {A} (a : A) : M A := fun s => (Done a, s).

Definition bind {A B} (c : M A) (k : A -> M B) : M B :=
  fun s =>
    match c s with
    | (Done a, s') => k a s'
    | (Thrown e, s') => (Thrown e, s')
    | (Pending, s') => (Pending, s')
    end.

Declare Scope session_scope.
Delimit Scope session_scope with session.
Notation "x <- c ;; k" := (bind c (fun x => k))
  (at level 61, c at next level, right associativity) : session_scope.
Notation "c ;; k" := (bind c (fun _ => k))
  (at level 61, right associativity) : session_scope.

(** An event happens: it is journalled and the state follows. *)
Definition emit (ev : Event) : M unit :=
  fun s =>
    (Done tt,
     {| Session.react := apply_event (Session.react s) ev;
        Session.journal := Session.journal s ++ [ev];
        Session.uuids := Session.uuids s |}).

Definition settle {A} (o : Outcome A) : M A := fun s => (o, s).

(** [try { body } catch (error) { handler }]. *)
Definition try_catch {A} (body : M A) (handler : JSError -> M A) : M A :=
  fun s =>
    match body s with
    | (Thrown e, s') => handler e s'
    | r => r
    end.

(** [try { body } finally { final }]: a body that never settles never
    reaches [final]. *)
Definition try_finally {A} (body : M A) (final : M unit) : M A :=
  fun s =>
    match body s with
    | (Pending, s') => (Pending, s')
    | (r, s') =>
        match final s' with
        | (Done _, s'') => (r, s'')
        | (Thrown e, s'') => (Thrown e, s'')
        | (Pending, s'') => (Pending, s'')
        end
    end.

Definition setIsGenerating (b : bool) : M unit := emit (SetIsGenerating b).
Definition setOriginalImage (v : option DataURL) : M unit := emit (SetOriginalImage v).
Definition setExtractedItems (v : list ExtractedItem.t) : M unit := emit (SetExtractedItems v).
Definition setShowPreview (b : bool) : M unit := emit (SetShowPreview b).
Definition console_error (what : string) (error : JSError) : M unit :=
  emit (ConsoleError what error).
Definition alert (message : string) : M unit := emit (Alert message).

(** ** [services/gemini] *)

Definition dquote : string := String (ascii_of_nat 34) EmptyString.

(** The [responseSchema] of the detection request. *)
Definition detection_schema : Schema :=
  SchemaArray
    (SchemaObject [("label", SchemaString);
                   ("box_2d", SchemaArray SchemaNumber);
                   ("description", SchemaString)]
                  ["label"; "box_2d"; "description"]).

(** [await ai.models.generateContent(request)], then [response.text]. *)
Definition generateContent (env : Env.t) (request : Request.t) : M (option string) :=
  (emit (GenerateContent request) ;;
   settle (Env.generateContent env request))%session.

Definition JSON_parse (env : Env.t) (text : string) : M JSValue :=
  match Env.JSON_parse env text with
  | Some v => ret v
  | None => settle (Thrown (SyntaxError "JSON.parse"))
  end.

(** The request [detectVisualElements] sends. *)
Definition detection_request (imageBase64 : Base64) : Request.t :=
  let model := "gemini-3-flash-preview" in
  let prompt := "Identify all distinct diagrams, photos, charts, illustrations, and maps in this image. For each, provide a short label and precise bounding box coordinates." in
  {| Request.model := model;
     Request.text := prompt;
     Request.data := imageBase64;
     Request.mimeType := "image/jpeg";
     Request.responseMimeType := Some "application/json";
     Request.responseSchema := Some detection_schema |}.

Definition detectVisualElements (env : Env.t) (imageBase64 : Base64) : M JSValue :=
  try_catch
    (text <- generateContent env (detection_request imageBase64) ;;
     match text with
     | Some (String c s) => JSON_parse env (String c s)
     | _ => ret (JArray [])       (* [!text]: undefined or the empty string *)
     end)%session
    (fun error =>
       (console_error "Detection Error:" error ;;
        ret (JArray []))%session).

(** The request [explainExtractedImage] sends. *)
Definition explanation_request (imageBase64 : Base64) (label : string) : Request.t :=
  let model := "gemini-3-pro-preview" in
  let prompt :=
    "This is an extracted visual element labeled " ++ dquote ++ label ++ dquote
    ++ ". Please provide a detailed explanation of what is shown, including any data, text labels within the image, and its likely purpose or significance. Use markdown for formatting." in
  {| Request.model := model;
     Request.text := prompt;
     Request.data := imageBase64;
     Request.mimeType := "image/jpeg";
     Request.responseMimeType := None;
     Request.responseSchema := None |}.

Definition explainExtractedImage (env : Env.t) (imageBase64 : Base64) (label : string)
    : M string :=
  try_catch
    (text <- generateContent env (explanation_request imageBase64 label) ;;
     ret (match text with
          | Some (String c s) => String c s
          | _ => "No explanation could be generated."   (* falsy [response.text] *)
          end))%session
    (fun error =>
       (console_error "Explanation Error:" error ;;
        ret "Error generating explanation.")%session).

(** The response shape the specification requires of the detector: an
    array of objects with a string [label], a [box_2d] of exactly four
    numbers and a string [description]. *)
Definition is_detection (v : JSValue) : bool :=
  match v with
  | JObject props =>
      match own_property "label" props,
            own_property "box_2d" props,
            own_property "description" props with
      | JString _, JArray [JNumber _; JNumber _; JNumber _; JNumber _], JString _ => true
      | _, _, _ => false
      end
  | _ => false
  end.

Definition matches_required_schema (v : JSValue) : bool :=
  match v with
  | JArray elems => forallb is_detection elems
  | _ => false
  end.

(** ** [App]: rasterising the requested page *)

(** [pdfjsLib.getDocument({ data }).promise]. *)
Definition getDocument (data : FileContent) : Outcome (list PdfPage) :=
  match data with
  | PdfBytes pages => Done pages
  | _ => Thrown (Error "Invalid PDF structure.")
  end.

(** [file.arrayBuffer()]. *)
Definition arrayBuffer (file : File.t) : Outcome FileContent :=
  if File.readable file then Done (File.content file)
  else Thrown (Error "The file could not be read.")%string.

(** [pdf.getPage(n)]: the engine rejects a page number outside
    [1 .. numPages]. *)
Definition getPage (pdf : list PdfPage) (n : Z) : Outcome PdfPage :=
  if (1 <=? n) && (n <=? Z.of_nat (List.length pdf)) then
    match nth_error pdf (Z.to_nat (n - 1)) with
    | Some page => Done page
    | None => Thrown (Error "Invalid page request.")
    end
  else Thrown (Error "Invalid page request.").

Definition getViewport (page : PdfPage) (scale : float) : Viewport :=
  {| viewport_width := (page_width page * scale)%float;
     viewport_height := (page_height page * scale)%float |}.

(** [page.render({ canvasContext, viewport }).promise]. *)
Definition render (page : PdfPage) (canvas : Canvas.t) (viewport : Viewport)
    : Outcome Canvas.t :=
  if page_renders page then Done (paint canvas (RenderPage page viewport))
  else Thrown (Error "The page could not be rendered.").

(** [Math.min(Math.max(1, pageNum), pageCount)]; the page number is an
    integer, the only caller passing [parseInt(...) || 1]. *)
Definition actualPageNum (pageNum pageCount : Z) : Z :=
  Z.min (Z.max 1 pageNum) pageCount.

Definition getPageImage (env : Env.t) (file : File.t) (pageNum : Z) : Outcome DataURL :=
  if String.prefix "image/" (File.type file) then
    (* the promise resolves in [reader.onload] only *)
    if File.readable file then Done (ReaderResult file) else Pending
  else if negb (Env.pdfjsLib env) then Thrown (Error "PDF Library missing")
  else
    (data <- arrayBuffer file ;;
     pdf <- getDocument data ;;
     let pageCount := Z.of_nat (List.length pdf) in
     page <- getPage pdf (actualPageNum pageNum pageCount) ;;
     let viewport := getViewport page 2.0 in
     let canvas := createCanvas in
     let canvas := set_height canvas (viewport_height viewport) in
     let canvas := set_width canvas (viewport_width viewport) in
     canvas <- render page canvas viewport ;;
     Done (toDataURL canvas "image/jpeg" 0.95))%outcome.

(** ** [App]: the scan and the reset handlers *)

(** The cropping loop run on the session's identifier counter. *)
Definition extract (env : Env.t) (img : HTMLImage.t) (detections : JSValue)
    : M (list ExtractedItem.t) :=
  fun s =>
    let '(r, n') :=
      extract_items (Env.ToNumber_ext env) (Env.randomUUID env) img detections
                    (Session.uuids s) in
    (r, {| Session.react := Session.react s;
           Session.journal := Session.journal s;
           Session.uuids := n' |}).

(** The [try] block of [handleScan]. *)
Definition handleScan_try (env : Env.t) (pageNumber : Z) (file : File.t) : M unit :=
  (emit (Rasterize file pageNumber) ;;
   pageDataUrl <- settle (getPageImage env file pageNumber) ;;
   setOriginalImage (Some pageDataUrl) ;;
   let base64ForGemini := Base64Of pageDataUrl in
   detections <- detectVisualElements env base64ForGemini ;;
   img <- settle (load_image pageDataUrl) ;;
   items <- extract env img detections ;;
   setExtractedItems items)%session.

(** The [catch] block of [handleScan]. *)
Definition handleScan_catch (error : JSError) : M unit :=
  (console_error "Scanning failed:" error ;;
   alert "Extraction failed. Check the console for details." ;;
   setShowPreview false)%session.

(** The three updates a scan starts with. *)
Definition handleScan_begin : M unit :=
  (setIsGenerating true ;;
   setShowPreview true ;;
   setExtractedItems [])%session.

Definition handleScan (env : Env.t) (pageNumber : Z) (file : option File.t) : M unit :=
  match file with
  | None => ret tt
  | Some file =>
      (handleScan_begin ;;
       try_finally
         (try_catch (handleScan_try env pageNumber file) handleScan_catch)
         (setIsGenerating false))%session
  end.

Definition handleReset : M unit :=
  (setShowPreview false ;;
   setIsGenerating false ;;
   setExtractedItems [] ;;
   setOriginalImage None)%session.

(** ** [components/LivePreview] *)

Module LivePreview.
Record Props : Type := {
  originalImage : option DataURL;
  items : list ExtractedItem.t;
  isLoading : bool;
  isFocused : bool
}.

(** The content pane: the spinner while loading, otherwise the source page
    beside one card per item. *)
Inductive Content : Type :=
| Spinner
| Results (source : option DataURL) (cards : list ExtractedItem.t).

Definition content (p : Props) : Content :=
  if isLoading p then Spinner else Results (originalImage p) (items p).

(** The item cards on screen. *)
Definition cards_shown (p : Props) : list ExtractedItem.t :=
  match content p with
  | Spinner => []
  | Results _ cards => cards
  end.
End LivePreview.

(** The props [App] renders [LivePreview] with. *)
Definition preview_props (st : AppState.t) : LivePreview.Props :=
  {| LivePreview.originalImage := AppState.originalImage st;
     LivePreview.items := AppState.extractedItems st;
     LivePreview.isLoading := AppState.isGenerating st;
     LivePreview.isFocused := AppState.showPreview st |}.

(** ** A concrete environment for the examples *)

(** A reader for the JSON texts made of [null], [true], [false], integers
    below 2^53, strings without escapes, arrays and objects; on these it
    agrees with [JSON.parse].  It answers [None] on anything else, so the
    examples only use texts of that fragment. *)
Definition is_ws (c : ascii) : bool :=
  let n := nat_of_ascii c in
  Nat.eqb n 32 || Nat.eqb n 9 || Nat.eqb n 10 || Nat.eqb n 13.

Definition digit_of (c : ascii) : option Z :=
  let n := nat_of_ascii c in
  if Nat.leb 48 n && Nat.leb n 57 then Some (Z.of_nat (n - 48)) else None.

Fixpoint skip_ws (l : list ascii) : list ascii :=
  match l with
  | c :: rest => if is_ws c then skip_ws rest else l
  | [] => []
  end.

Fixpoint strip_prefix (p l : list ascii) : option (list ascii) :=
  match p, l with
  | [], _ => Some l
  | a :: p', b :: l' => if Ascii.eqb a b then strip_prefix p' l' else None
  | _ :: _, [] => None
  end.

Fixpoint read_digits (acc : Z) (l : list ascii) : Z * list ascii :=
  match l with
  | c :: rest =>
      match digit_of c with
      | Some d => read_digits (10 * acc + d) rest
      | None => (acc, l)
      end
  | [] => (acc, [])
  end.

(** An integer literal: no leading zero, no fraction, no exponent. *)
Definition read_integer (l : list ascii) : option (float * list ascii) :=
  let '(negative, l1) :=
    match l with
    | c :: rest => if Ascii.eqb c "-" then (true, rest) else (false, l)
    | [] => (false, l)
    end in
  match l1 with
  | c :: rest =>
      match digit_of c with
      | Some d =>
          let '(z, l2) := if d =? 0 then (0, rest) else read_digits d rest in
          let follows_number :=
            match l2 with
            | c2 :: _ =>
                match digit_of c2 with
                | Some _ => true
                | None => Ascii.eqb c2 "." || Ascii.eqb c2 "e" || Ascii.eqb c2 "E"
                end
            | [] => false
            end in
          if follows_number || (2 ^ 53 <=? z) then None
          else
            let x := Number_of_ulong z in
            Some (if negative then (- x)%float else x, l2)
      | None => None
      end
  | [] => None
  end.

(** The characters of a string literal up to its closing quote. *)
Fixpoint read_string (l : list ascii) : option (string * list ascii) :=
  match l with
  | c :: rest =>
      let n := nat_of_ascii c in
      if Nat.eqb n 34 then Some (EmptyString, rest)
      else if Nat.eqb n 92 || Nat.ltb n 32 then None
      else
        match read_string rest with
        | Some (s, rest') => Some (String c s, rest')
        | None => None
        end
  | [] => None
  end.

Fixpoint read_value (fuel : nat) (l : list ascii) : option (JSValue * list ascii) :=
  match fuel with
  | O => None
  | S fuel =>
      match skip_ws l with
      | c :: rest =>
          let n := nat_of_ascii c in
          if Nat.eqb n 34 then
            match read_string rest with
            | Some (s, rest') => Some (JString s, rest')
            | None => None
            end
          else if Ascii.eqb c "[" then
            match skip_ws rest with
            | c' :: rest' =>
                if Ascii.eqb c' "]" then Some (JArray [], rest')
                else
                  match read_elements fuel rest with
                  | Some (vs, rest'') => Some (JArray vs, rest'')
                  | None => None
                  end
            | [] => None
            end
          else if Ascii.eqb c "{" then
            match skip_ws rest with
            | c' :: rest' =>
                if Ascii.eqb c' "}" then Some (JObject [], rest')
                else
                  match read_members fuel rest with
                  | Some (kvs, rest'') => Some (JObject kvs, rest'')
                  | None => None
                  end
            | [] => None
            end
          else if Ascii.eqb c "n" then
            option_map (pair JNull) (strip_prefix (list_ascii_of_string "null") (c :: rest))
          else if Ascii.eqb c "t" then
            option_map (pair (JBool true))
                       (strip_prefix (list_ascii_of_string "true") (c :: rest))
          else if Ascii.eqb c "f" then
            option_map (pair (JBool false))
                       (strip_prefix (list_ascii_of_string "false") (c :: rest))
          else
            match read_integer (c :: rest) with
            | Some (x, rest') => Some (JNumber x, rest')
            | None => None
            end
      | [] => None
      end
  end
with read_elements (fuel : nat) (l : list ascii) : option (list JSValue * list ascii) :=
  match fuel with
  | O => None
  | S fuel =>
      match read_value fuel l with
      | Some (v, rest) =>
          match skip_ws rest with
          | c :: rest' =>
              if Ascii.eqb c "," then
                match read_elements fuel rest' with
                | Some (vs, rest'') => Some (v :: vs, rest'')
                | None => None
                end
              else if Ascii.eqb c "]" then Some ([v], rest')
              else None
          | [] => None
          end
      | None => None
      end
  end
with read_members (fuel : nat) (l : list ascii)
    : option (list (string * JSValue) * list ascii) :=
  match fuel with
  | O => None
  | S fuel =>
      match skip_ws l with
      | q :: rest =>
          if Nat.eqb (nat_of_ascii q) 34 then
            match read_string rest with
            | Some (k, rest1) =>
                match skip_ws rest1 with
                | c :: rest2 =>
                    if Ascii.eqb c ":" then
                      match read_value fuel rest2 with
                      | Some (v, rest3) =>
                          match skip_ws rest3 with
                          | c' :: rest4 =>
                              if Ascii.eqb c' "," then
                                match read_members fuel rest4 with
                                | Some (kvs, rest5) => Some ((k, v) :: kvs, rest5)
                                | None => None
                                end
                              else if Ascii.eqb c' "}" then Some ([(k, v)], rest4)
                              else None
                          | [] => None
                          end
                      | None => None
                      end
                    else None
                | [] => None
                end
            | None => None
            end
          else None
      | [] => None
      end
  end.

Definition sample_JSON_parse (text : string) : option JSValue :=
  let l := list_ascii_of_string text in
  match read_value (2 * List.length l + 2) l with
  | Some (v, rest) =>
      match skip_ws rest with
      | [] => Some v
      | _ :: _ => None
      end
  | None => None
  end.

(** Distinct identifiers, in place of the random ones. *)
Definition sample_randomUUID (n : nat) : string :=
  "id-" ++ NilEmpty.string_of_uint (Nat.to_uint n).

(** An environment whose remote service gives the same answer to every
    request.  Its [ToNumber_ext] is the conversion of plain objects; the
    examples convert numbers only. *)
Definition sample_env (answer : Outcome (option string)) : Env.t :=
  {| Env.generateContent := fun _ => answer;
     Env.JSON_parse := sample_JSON_parse;
     Env.ToNumber_ext := fun _ => nan;
     Env.randomUUID := sample_randomUUID;
     Env.pdfjsLib := true |}.

Definition initial_state : AppState.t :=
  {| AppState.isGenerating := false;
     AppState.originalImage := None;
     AppState.extractedItems := [];
     AppState.showPreview := false |}.

Definition initial_session : Session.t :=
  {| Session.react := initial_state; Session.journal := []; Session.uuids := 0 |}.

(** The page of the end-to-end scenario: an 800 x 600 image file. *)
Definition chart_jpg : File.t :=
  {| File.type := "image/jpeg"; File.content := ImageBytes 800 600; File.readable := true |}.

Definition chart_text : string :=
  "[{" ++ dquote ++ "label" ++ dquote ++ ":" ++ dquote ++ "Bar Chart" ++ dquote
  ++ "," ++ dquote ++ "box_2d" ++ dquote ++ ":[100,200,400,800],"
  ++ dquote ++ "description" ++ dquote ++ ":" ++ dquote ++ "Sales by year" ++ dquote ++ "}]".

Definition bar_chart : VisualElement.t :=
  {| VisualElement.label := "Bar Chart";
     VisualElement.box_2d := (100, 200, 400, 800)%float;
     VisualElement.description := "Sales by year" |}.

(** The page once loaded into an image element. *)
Definition chart_img : HTMLImage.t :=
  {| HTMLImage.src := ReaderResult chart_jpg;
     HTMLImage.width := 800;
     HTMLImage.height := 600 |}.

(** A detection whose box has [xmax < xmin]. *)
Definition flipped_chart : VisualElement.t :=
  {| VisualElement.label := "Bar Chart";
     VisualElement.box_2d := (100, 800, 400, 200)%float;
     VisualElement.description := "Sales by year" |}.

(** A response that is valid JSON but not of the required shape: the one
    object has no [box_2d] and no [description]. *)
Definition partial_text : string :=
  "[{" ++ dquote ++ "label" ++ dquote ++ ":" ++ dquote ++ "Chart" ++ dquote ++ "}]".

(** A ten-page document of US Letter pages. *)
Definition letter_page : PdfPage :=
  {| page_width := 612; page_height := 792; page_renders := true |}.

Definition ten_pages : list PdfPage := repeat letter_page 10.

(** The session once [ev] has been journalled. *)
Definition logged (ev : Event) (s : Session.t) : Session.t := snd (emit ev s).

(** The answers of the remote service that leave the detector with the
    empty array: a rejection, a response without text or with an empty one,
    a text that is not JSON. *)
Definition no_detections (env : Env.t) (request : Request.t) : Prop :=
  match Env.generateContent env request with
  | Thrown _ => True
  | Done None => True
  | Done (Some text) => text = EmptyString \/ Env.JSON_parse env text = None
  | Pending => False
  end.

Definition is_alert (ev : Event) : bool :=
  match ev with
  | Alert _ => true
  | _ => false
  end.

Definition is_remote_call (ev : Event) : bool :=
  match ev with
  | GenerateContent _ => true
  | _ => false
  end.

(** ** [App]: a scan cut at its remote call *)

(** [handleScan] suspends at [await ai.models.generateContent(...)], and
    other handlers may run before it resumes.  [scan_start] is the scan up
    to the moment the request has been issued, [scan_resume] is what runs
    once the request has settled with [answer], [scan_abort] is the [catch]
    and [finally] blocks after a failure of the first part
    (lemma [handleScan_start_resume]). *)
Definition scan_start (env : Env.t) (pageNumber : Z) (file : File.t) : M DataURL :=
  (handleScan_begin ;;
   emit (Rasterize file pageNumber) ;;
   pageDataUrl <- settle (getPageImage env file pageNumber) ;;
   setOriginalImage (Some pageDataUrl) ;;
   emit (GenerateContent (detection_request (Base64Of pageDataUrl))) ;;
   ret pageDataUrl)%session.

(** [detectVisualElements] from the point where its request has settled. *)
Definition detect_resume (env : Env.t) (answer : Outcome (option string)) : M JSValue :=
  try_catch
    (text <- settle answer ;;
     match text with
     | Some (String c s) => JSON_parse env (String c s)
     | _ => ret (JArray [])
     end)%session
    (fun error =>
       (console_error "Detection Error:" error ;;
        ret (JArray []))%session).

Definition scan_resume (env : Env.t) (pageDataUrl : DataURL)
    (answer : Outcome (option string)) : M unit :=
  try_finally
    (try_catch
       (detections <- detect_resume env answer ;;
        img <- settle (load_image pageDataUrl) ;;
        items <- extract env img detections ;;
        setExtractedItems items)%session
       handleScan_catch)
    (setIsGenerating false).

Definition scan_abort (error : JSError) : M unit :=
  try_finally (handleScan_catch error) (setIsGenerating false).

(** A detection the loop cannot take a box from: reading [box_2d] throws,
    or what is read is not iterable. *)
Definition unreadable_box (det : JSValue) : bool :=
  match Get det "box_2d" with
  | Done box =>
      match GetIterator box with
      | Thrown _ => true
      | _ => false
      end
  | Thrown _ => true
  | Pending => false
  end.

(** ** [components/LivePreview]: header, empty notice, explanation panel *)

(** The decimal text of a count, as a template literal prints it. *)
Definition count_text (n : nat) : string :=
  NilEmpty.string_of_uint (Nat.to_uint n).

(** The caption in the header of [LivePreview]. *)
Definition preview_header (p : LivePreview.Props) : string :=
  if LivePreview.isLoading p then "Scanning Page..."
  else count_text (List.length (LivePreview.items p)) ++ " Elements Discovered".

(** Whether the notice [No visual elements detected] is rendered: in the
    results pane, when [items.length === 0]. *)
Definition preview_empty_notice (p : LivePreview.Props) : bool :=
  negb (LivePreview.isLoading p) && Nat.eqb (List.length (LivePreview.items p)) 0.

Module ExplanationPanel.
(** The two [useState] cells of the panel. *)
Record State : Type := {
  explanation : option string;
  loading : bool
}.

Definition initial : State := {| explanation := None; loading := true |}.

(** What the right-hand side shows: the placeholder bars while loading,
    otherwise the explanation. *)
Inductive Body : Type :=
| Skeleton
| Text (explanation : option string).

Definition body (st : State) : Body :=
  if loading st then Skeleton else Text (explanation st).
End ExplanationPanel.

Section Panel.

(** [ToString] on numbers, arrays and objects. *)
Variable ToString_ext : JSValue -> string.

(** The text a template literal substitutes for [item.label]. *)
Definition ToString (v : JSValue) : string :=
  match v with
  | JString s => s
  | JUndefined => "undefined"
  | JNull => "null"
  | JBool true => "true"
  | JBool false => "false"
  | JNumber _ | JArray _ | JObject _ => ToString_ext v
  end.

(** The effect of [ExplanationPanel]: [getExp], run when the panel mounts
    for [item]. *)
Definition getExp (env : Env.t) (item : ExtractedItem.t)
    (st : ExplanationPanel.State) (s : Session.t)
    : Outcome unit * ExplanationPanel.State * Session.t :=
  let st1 := {| ExplanationPanel.explanation := ExplanationPanel.explanation st;
                ExplanationPanel.loading := true |} in
  match explainExtractedImage env (Base64Of (ExtractedItem.dataUrl item))
                              (ToString (ExtractedItem.label item)) s with
  | (Done exp, s') =>
      let st2 := {| ExplanationPanel.explanation := Some exp;
                    ExplanationPanel.loading := ExplanationPanel.loading st1 |} in
      (Done tt,
       {| ExplanationPanel.explanation := ExplanationPanel.explanation st2;
          ExplanationPanel.loading := false |},
       s')
  | (Thrown e, s') => (Thrown e, st1, s')
  | (Pending, s') => (Pending, st1, s')
  end.

End Panel.

(** ** [components/InputArea] *)

Module InputArea.
Record Props : Type := {
  isGenerating : bool;
  disabled : bool
}.

(** The three [useState] cells. *)
Record State : Type := {
  isDragging : bool;
  selectedFile : option File.t;
  pageNumber : float
}.

(** What a handler does besides updating the state. *)
Inductive Effect : Type :=
| PreventDefault
| Alert (message : string)
| OnGenerate (page : float) (file : File.t).

Definition initial : State :=
  {| isDragging := false; selectedFile := None; pageNumber := 1%float |}.

Definition setIsDragging (b : bool) (st : State) : State :=
  {| isDragging := b; selectedFile := selectedFile st; pageNumber := pageNumber st |}.

Definition setSelectedFile (f : option File.t) (st : State) : State :=
  {| isDragging := isDragging st; selectedFile := f; pageNumber := pageNumber st |}.

Definition setPageNumber (n : float) (st : State) : State :=
  {| isDragging := isDragging st; selectedFile := selectedFile st; pageNumber := n |}.

(** The test of [handleFileSelect]. *)
Definition accepted (file : File.t) : bool :=
  String.prefix "image/" (File.type file) || String.eqb (File.type file) "application/pdf".

Definition handleFileSelect (file : File.t) (st : State) : State * list Effect :=
  if accepted file then (setSelectedFile (Some file) st, [])
  else (st, [Alert "Please upload an image or PDF document."]).

(** [files] is the event's [FileList]; [files && files[0]] is its head. *)
Definition handleFileChange (files : list File.t) (st : State) : State * list Effect :=
  match files with
  | file :: _ => handleFileSelect file st
  | [] => (st, [])
  end.

Definition handleDrop (props : Props) (files : list File.t) (st : State)
    : State * list Effect :=
  let st := setIsDragging false st in
  if disabled props || isGenerating props then (st, [PreventDefault])
  else
    match files with
    | file :: _ =>
        let '(st', effects) := handleFileSelect file st in
        (st', PreventDefault :: effects)
    | [] => (st, [PreventDefault])
    end.

Definition handleDragOver (props : Props) (st : State) : State * list Effect :=
  if negb (disabled props) && negb (isGenerating props)
  then (setIsDragging true st, [PreventDefault])
  else (st, [PreventDefault]).

Definition handleDragLeave (st : State) : State * list Effect :=
  (setIsDragging false st, [PreventDefault]).

Definition handleStartScan (st : State) : State * list Effect :=
  match selectedFile st with
  | Some file => (st, [OnGenerate (pageNumber st) file])
  | None => (st, [])
  end.

Definition resetSelection (st : State) : State * list Effect :=
  (setPageNumber 1%float (setSelectedFile None st), []).

(** [x || 1] on a number: [NaN] and the two zeros are falsy. *)
Definition or_one (x : float) : float :=
  if PrimFloat.is_nan x || PrimFloat.is_zero x then 1%float else x.

(** The [onChange] of the page input: [parseInt(e.target.value) || 1]. *)
Definition handlePageChange (parseInt : string -> float) (value : string) (st : State)
    : State * list Effect :=
  (setPageNumber (or_one (parseInt value)) st, []).

(** The events the component handles. *)
Inductive Action : Type :=
| FileChange (files : list File.t)
| Drop (files : list File.t)
| DragOver
| DragLeave
| StartScan
| ResetSelection
| PageChange (value : string).

Definition handle (parseInt : string -> float) (props : Props) (a : Action) (st : State)
    : State * list Effect :=
  match a with
  | FileChange files => handleFileChange files st
  | Drop files => handleDrop props files st
  | DragOver => handleDragOver props st
  | DragLeave => handleDragLeave st
  | StartScan => handleStartScan st
  | ResetSelection => resetSelection st
  | PageChange value => handlePageChange parseInt value st
  end.

(** A sequence of events, each under the props of its render. *)
Fixpoint run (parseInt : string -> float) (trace : list (Props * Action)) (st : State)
    : State * list Effect :=
  match trace with
  | [] => (st, [])
  | (props, a) :: rest =>
      let '(st1, effects1) := handle parseInt props a st in
      let '(st2, effects2) := run parseInt rest st1 in
      (st2, (effects1 ++ effects2)%list)
  end.

(** A number that is neither [NaN] nor zero. *)
Definition truthy (x : float) : bool :=
  negb (PrimFloat.is_nan x || PrimFloat.is_zero x).
End InputArea.

(** The props [App] renders [InputArea] with. *)
Definition input_props (st : AppState.t) : InputArea.Props :=
  {| InputArea.isGenerating := AppState.isGenerating st;
     InputArea.disabled := AppState.showPreview st |}.

(** What [InputArea] keeps true of its state: a selected file passed the
    test of [handleFileSelect], and the page number is neither [NaN] nor
    zero. *)
Definition input_invariant (st : InputArea.State) : Prop :=
  (forall file, InputArea.selectedFile st = Some file -> InputArea.accepted file = true)
  /\ InputArea.truthy (InputArea.pageNumber st) = true.

(** More examples: a file that is neither an image nor a PDF, and a PDF
    of ten pages. *)
Definition notes_txt : File.t :=
  {| File.type := "text/plain"; File.content := OtherBytes; File.readable := true |}.

Definition report_pdf : File.t :=
  {| File.type := "application/pdf";
     File.content := PdfBytes ten_pages;
     File.readable := true |}.

(** A PDF of three pages of different sizes: Letter, A4 (rounded to whole
    units) and Legal. *)
Definition a4_page : PdfPage :=
  {| page_width := 595; page_height := 842; page_renders := true |}.

Definition legal_page : PdfPage :=
  {| page_width := 612; page_height := 1008; page_renders := true |}.

Definition three_pages : list PdfPage := [letter_page; a4_page; legal_page].

Definition booklet_pdf : File.t :=
  {| File.type := "application/pdf";
     File.content := PdfBytes three_pages;
     File.readable := true |}.

(** * Properties *)

(** ** The cropping loop on well-typed detections *)

Section CroppingFacts.

Variable ToNumber_ext : JSValue -> float.
Variable randomUUID : nat -> string.
Variable img : HTMLImage.t.

Lemma crop_step_well_typed (d : VisualElement.t) (canvas : Canvas.t) (n : nat) :
  exists canvas',
    crop_step ToNumber_ext randomUUID img (js_of_VisualElement d) canvas n
    = Done (item_of (randomUUID n) img d, canvas').
Proof.
  destruct d as [l [[[ymin xmin] ymax] xmax] descr].
  eexists. reflexivity.
Qed.

Lemma crop_loop_well_typed (ds : list VisualElement.t) :
  forall items canvas n,
  exists canvas',
    crop_loop ToNumber_ext randomUUID img (map js_of_VisualElement ds) items canvas n
    = (Done ((items ++ items_of randomUUID img n ds)%list, canvas'), (n + List.length ds)%nat).
Proof.
  induction ds as [|d ds IH]; intros items canvas n.
  - exists canvas. cbn. now rewrite app_nil_r, Nat.add_0_r.
  - destruct (crop_step_well_typed d canvas n) as [c Hstep].
    destruct (IH (items ++ [item_of (randomUUID n) img d])%list c (S n)) as [c' Hloop].
    exists c'. cbn [map crop_loop List.length items_of]. rewrite Hstep, Hloop.
    now rewrite <- app_assoc, Nat.add_succ_r.
Qed.

Lemma extract_items_well_typed (ds : list VisualElement.t) (n : nat) :
  extract_items ToNumber_ext randomUUID img (js_of_detections ds) n
  = (Done (items_of randomUUID img n ds), (n + List.length ds)%nat).
Proof.
  unfold extract_items, js_of_detections. cbn [GetIterator].
  destruct (crop_loop_well_typed ds [] createCanvas n) as [c Hloop].
  now rewrite Hloop.
Qed.

Lemma items_of_length (ds : list VisualElement.t) (n : nat) :
  List.length (items_of randomUUID img n ds) = List.length ds.
Proof.
  revert n; induction ds as [|d ds IH]; intros n; cbn; [reflexivity | now rewrite IH].
Qed.

Lemma items_of_nth (ds : list VisualElement.t) :
  forall n i d,
    nth_error ds i = Some d ->
    nth_error (items_of randomUUID img n ds) i = Some (item_of (randomUUID (n + i)) img d).
Proof.
  induction ds as [|d0 ds IH]; intros n i d Hnth.
  - destruct i; discriminate.
  - destruct i as [|i]; cbn in *.
    + injection Hnth as ->. now rewrite Nat.add_0_r.
    + rewrite (IH (S n) i d Hnth). now rewrite Nat.add_succ_r.
Qed.

Lemma items_of_labels (ds : list VisualElement.t) (n : nat) :
  map ExtractedItem.label (items_of randomUUID img n ds)
  = map (fun d => JString (VisualElement.label d)) ds.
Proof.
  revert n; induction ds as [|d ds IH]; intros n; cbn; [reflexivity|].
  rewrite IH. f_equal. now destruct d as [l [[[ymin xmin] ymax] xmax] descr].
Qed.

Lemma items_of_descriptions (ds : list VisualElement.t) (n : nat) :
  map ExtractedItem.description (items_of randomUUID img n ds)
  = map (fun d => JString (VisualElement.description d)) ds.
Proof.
  revert n; induction ds as [|d ds IH]; intros n; cbn; [reflexivity|].
  rewrite IH. f_equal. now destruct d as [l [[[ymin xmin] ymax] xmax] descr].
Qed.

End CroppingFacts.

(** C1. For a detection with box (ymin, xmin, ymax, xmax) on a page of
    pageWidth x pageHeight pixels, the loop computes
    left = (xmin/1000)*pageWidth, top = (ymin/1000)*pageHeight,
    width = ((xmax-xmin)/1000)*pageWidth, height = ((ymax-ymin)/1000)*pageHeight,
    sizes the canvas from width and height, and draws the page region
    (left, top, width, height) onto the destination rectangle
    (0, 0, width, height): source and destination have the same size, so
    nothing is scaled. *)
Theorem C1_crop_rectangle :
  forall (ToNumber_ext : JSValue -> float) (randomUUID : nat -> string)
         (img : HTMLImage.t) (ds : list VisualElement.t) (n i : nat)
         (d : VisualElement.t),
    nth_error ds i = Some d ->
    let '(ymin, xmin, ymax, xmax) := VisualElement.box_2d d in
    let pageWidth := Number_of_ulong (HTMLImage.width img) in
    let pageHeight := Number_of_ulong (HTMLImage.height img) in
    let left := (xmin / 1000 * pageWidth)%float in
    let top := (ymin / 1000 * pageHeight)%float in
    let width := ((xmax - xmin) / 1000 * pageWidth)%float in
    let height := ((ymax - ymin) / 1000 * pageHeight)%float in
    exists items item,
      extract_items ToNumber_ext randomUUID img (js_of_detections ds) n
      = (Done items, (n + List.length ds)%nat)
      /\ nth_error items i = Some item
      /\ ExtractedItem.dataUrl item
         = CanvasDataURL
             (reflected_dimension 300 width) (reflected_dimension 150 height)
             [ClearRect 0 0 width height;
              DrawImage (HTMLImage.src img) (HTMLImage.width img) (HTMLImage.height img)
                        left top width height 0 0 width height]
             "image/jpeg" 0.9.
Proof.
  intros tonum uuid img ds n i d Hnth.
  pose proof (items_of_nth uuid img ds n i d Hnth) as Hitem.
  destruct d as [l [[[ymin xmin] ymax] xmax] descr]. cbn [VisualElement.box_2d].
  eexists. eexists. split; [apply extract_items_well_typed|].
  split; [exact Hitem|]. reflexivity.
Qed.

(** The end-to-end scenario: on the 800 x 600 page the box
    [100, 200, 400, 800] is cropped from (160, 60) with size 480 x 180. *)
Lemma C1_crop_rectangle_chart :
  exists items item,
    extract_items (fun _ => nan) sample_randomUUID chart_img
                  (js_of_detections [bar_chart]) 0
    = (Done items, 1%nat)
    /\ nth_error items 0 = Some item
    /\ ExtractedItem.dataUrl item
       = CanvasDataURL 480 180
           [ClearRect 0 0 480 180;
            DrawImage (ReaderResult chart_jpg) 800 600 160 60 480 180 0 0 480 180]
           "image/jpeg" 0.9.
Proof.
  exact (C1_crop_rectangle (fun _ => nan) sample_randomUUID chart_img
                           [bar_chart] 0 0 bar_chart eq_refl).
Defined.

(** C2, as the code has it. For a detection whose box is malformed
    (xmax < xmin or ymax < ymin) the loop does not fault and the item is
    produced at the detection's index with its label and description, one
    item per detection; width and height are not clamped: the canvas is
    sized from, and the drawing calls receive, the values
    ((xmax-xmin)/1000)*pageWidth and ((ymax-ymin)/1000)*pageHeight as
    computed. *)
Theorem C2_malformed_box_item_kept :
  forall (ToNumber_ext : JSValue -> float) (randomUUID : nat -> string)
         (img : HTMLImage.t) (ds : list VisualElement.t) (n i : nat)
         (d : VisualElement.t),
    nth_error ds i = Some d ->
    malformed d = true ->
    exists items item,
      extract_items ToNumber_ext randomUUID img (js_of_detections ds) n
      = (Done items, (n + List.length ds)%nat)
      /\ List.length items = List.length ds
      /\ nth_error items i = Some item
      /\ ExtractedItem.label item = JString (VisualElement.label d)
      /\ ExtractedItem.description item = JString (VisualElement.description d)
      /\ let '(ymin, xmin, ymax, xmax) := VisualElement.box_2d d in
         let pageWidth := Number_of_ulong (HTMLImage.width img) in
         let pageHeight := Number_of_ulong (HTMLImage.height img) in
         let width := ((xmax - xmin) / 1000 * pageWidth)%float in
         let height := ((ymax - ymin) / 1000 * pageHeight)%float in
         ExtractedItem.dataUrl item
         = CanvasDataURL
             (reflected_dimension 300 width) (reflected_dimension 150 height)
             [ClearRect 0 0 width height;
              DrawImage (HTMLImage.src img) (HTMLImage.width img) (HTMLImage.height img)
                        (xmin / 1000 * pageWidth) (ymin / 1000 * pageHeight)
                        width height 0 0 width height]
             "image/jpeg" 0.9.
Proof.
  intros tonum uuid img ds n i d Hnth _.
  pose proof (items_of_nth uuid img ds n i d Hnth) as Hitem.
  exists (items_of uuid img n ds), (item_of (uuid (n + i)%nat) img d).
  split; [apply extract_items_well_typed|].
  split; [apply items_of_length|].
  split; [exact Hitem|].
  destruct d as [l [[[ymin xmin] ymax] xmax] descr].
  split; [reflexivity|]. split; reflexivity.
Qed.

(** On the 800 x 600 page the flipped box [100, 800, 400, 200] still
    yields its item, drawn with the width -480. *)
Lemma C2_malformed_box_item_kept_flipped :
  malformed flipped_chart = true
  /\ exists items item,
       extract_items (fun _ => nan) sample_randomUUID chart_img
                     (js_of_detections [bar_chart; flipped_chart]) 0
       = (Done items, 2%nat)
       /\ List.length items = 2%nat
       /\ nth_error items 1 = Some item
       /\ ExtractedItem.label item = JString "Bar Chart"
       /\ ExtractedItem.description item = JString "Sales by year"
       /\ ExtractedItem.dataUrl item
          = CanvasDataURL 300 180
              [ClearRect 0 0 (-480) 180;
               DrawImage (ReaderResult chart_jpg) 800 600 640 60 (-480) 180 0 0 (-480) 180]
              "image/jpeg" 0.9.
Proof.
  split; [reflexivity|].
  apply (C2_malformed_box_item_kept (fun _ => nan) sample_randomUUID chart_img
           [bar_chart; flipped_chart] 0 1 flipped_chart eq_refl eq_refl).
Defined.

(** C2 as stated fails: for the flipped box the width the code computes is
    -480, not 0; it is handed unchanged to the canvas and to [drawImage],
    and the canvas the crop is encoded from is 300 x 180 (the negative width
    falls back to the default of the attribute), not an empty one. *)
Lemma C2_negative_width_not_clamped :
  malformed flipped_chart = true
  /\ fst (extract_items (fun _ => nan) sample_randomUUID chart_img
                        (js_of_detections [flipped_chart]) 0)
     = Done [{| ExtractedItem.id := "id-0";
                ExtractedItem.label := JString "Bar Chart";
                ExtractedItem.dataUrl :=
                  CanvasDataURL 300 180
                    [ClearRect 0 0 (-480) 180;
                     DrawImage (ReaderResult chart_jpg) 800 600
                               640 60 (-480) 180 0 0 (-480) 180]
                    "image/jpeg" 0.9;
                ExtractedItem.description := JString "Sales by year" |}]
  /\ ((-480) <? 0)%float = true
  /\ 300 * 180 <> 0.
Proof.
  split; [reflexivity|]. split; [reflexivity|]. split; [reflexivity|discriminate].
Qed.

(** C3. A detection list of length N yields exactly N items, in the order
    of the detections: item i carries the label and the description of
    detection i. *)
Theorem C3_order_preservation :
  forall (ToNumber_ext : JSValue -> float) (randomUUID : nat -> string)
         (img : HTMLImage.t) (ds : list VisualElement.t) (n : nat),
    exists items,
      extract_items ToNumber_ext randomUUID img (js_of_detections ds) n
      = (Done items, (n + List.length ds)%nat)
      /\ List.length items = List.length ds
      /\ map ExtractedItem.label items
         = map (fun d => JString (VisualElement.label d)) ds
      /\ map ExtractedItem.description items
         = map (fun d => JString (VisualElement.description d)) ds
      /\ forall i d,
           nth_error ds i = Some d ->
           exists item,
             nth_error items i = Some item
             /\ ExtractedItem.label item = JString (VisualElement.label d)
             /\ ExtractedItem.description item = JString (VisualElement.description d).
Proof.
  intros tonum uuid img ds n.
  exists (items_of uuid img n ds).
  split; [apply extract_items_well_typed|].
  split; [apply items_of_length|].
  split; [apply items_of_labels|].
  split; [apply items_of_descriptions|].
  intros i d Hnth. exists (item_of (uuid (n + i)%nat) img d).
  split; [now apply items_of_nth|].
  now destruct d as [l [[[ymin xmin] ymax] xmax] descr].
Qed.

(** ** Determinism of the cropping loop *)

Section Determinism.

Variable ToNumber_ext : JSValue -> float.
Variable img : HTMLImage.t.

(** One iteration resets the canvas before drawing, so its crop and the
    canvas it leaves depend on the page and the detection only. *)
Lemma crop_step_independent (uuid1 uuid2 : nat -> string) (det : JSValue)
    (c1 c2 : Canvas.t) (n1 n2 : nat) :
  match crop_step ToNumber_ext uuid1 img det c1 n1,
        crop_step ToNumber_ext uuid2 img det c2 n2 with
  | Done (item1, c1'), Done (item2, c2') =>
      ExtractedItem.dataUrl item1 = ExtractedItem.dataUrl item2 /\ c1' = c2'
  | Thrown e1, Thrown e2 => e1 = e2
  | Pending, Pending => True
  | _, _ => False
  end.
Proof.
  unfold crop_step.
  destruct (Get det "box_2d") as [box| |]; cbn [obind]; [|reflexivity|exact I].
  destruct (destructure4 box) as [[[[ymin xmin] ymax] xmax]| |]; cbn [obind];
    [|reflexivity|exact I].
  destruct (Get det "label") as [l| |]; cbn [obind]; [|reflexivity|exact I].
  destruct (Get det "description") as [descr| |]; cbn [obind]; [|reflexivity|exact I].
  split; reflexivity.
Qed.

Lemma crop_loop_independent (uuid1 uuid2 : nat -> string) (dets : list JSValue) :
  forall items1 items2 c1 c2 n1 n2,
    map ExtractedItem.dataUrl items1 = map ExtractedItem.dataUrl items2 ->
    same_crops (fst (crop_loop ToNumber_ext uuid1 img dets items1 c1 n1))
               (fst (crop_loop ToNumber_ext uuid2 img dets items2 c2 n2)).
Proof.
  induction dets as [|det dets IH]; intros items1 items2 c1 c2 n1 n2 Hitems.
  - unfold same_crops. cbn. now rewrite Hitems.
  - cbn [crop_loop].
    pose proof (crop_step_independent uuid1 uuid2 det c1 c2 n1 n2) as Hstep.
    destruct (crop_step ToNumber_ext uuid1 img det c1 n1) as [[item1 c1']| e1|];
      destruct (crop_step ToNumber_ext uuid2 img det c2 n2) as [[item2 c2']| e2|];
      try contradiction.
    + destruct Hstep as [Hurl ->].
      apply IH. rewrite !map_app. cbn [map]. now rewrite Hitems, Hurl.
    + subst e2. reflexivity.
    + reflexivity.
Qed.

End Determinism.

(** C7. The extraction step is a function of the page image and the
    detections: two runs on the same pair give the same crops (or fail
    alike), whatever identifiers [crypto.randomUUID] hands out; the step
    issues no remote call and changes nothing of the session but the count
    of identifiers drawn. *)
Theorem C7_extraction_deterministic :
  forall (ToNumber_ext : JSValue -> float) (img : HTMLImage.t) (detections : JSValue)
         (uuid1 uuid2 : nat -> string) (n1 n2 : nat),
    crops (extract_items ToNumber_ext uuid1 img detections n1)
    = crops (extract_items ToNumber_ext uuid2 img detections n2)
    /\ forall (env : Env.t) (s : Session.t),
         let run := extract env img detections s in
         Session.journal (snd run) = Session.journal s
         /\ Session.react (snd run) = Session.react s
         /\ outcome_map (map ExtractedItem.dataUrl) (fst run)
            = crops (extract_items (Env.ToNumber_ext env) uuid1 img detections n1).
Proof.
  assert (Hgen : forall tonum img detections u1 u2 m1 m2,
             crops (extract_items tonum u1 img detections m1)
             = crops (extract_items tonum u2 img detections m2)).
  { intros tonum img detections u1 u2 m1 m2. unfold crops, extract_items.
    destruct (GetIterator detections) as [dets| e |]; [|reflexivity|reflexivity].
    pose proof (crop_loop_independent tonum img u1 u2 dets [] [] createCanvas createCanvas
                  m1 m2 eq_refl) as Hloop.
    destruct (crop_loop tonum u1 img dets [] createCanvas m1) as [r1 k1].
    destruct (crop_loop tonum u2 img dets [] createCanvas m2) as [r2 k2].
    unfold same_crops in Hloop. cbn [fst] in *.
    destruct r1 as [[i1 c1]| e1|], r2 as [[i2 c2]| e2|]; cbn in *; congruence. }
  intros tonum img detections uuid1 uuid2 n1 n2.
  split; [apply Hgen|].
  intros env s. cbv zeta.
  rewrite (Hgen (Env.ToNumber_ext env) img detections
                uuid1 (Env.randomUUID env) n1 (Session.uuids s)).
  unfold extract, crops.
  destruct (extract_items (Env.ToNumber_ext env) (Env.randomUUID env) img detections
                          (Session.uuids s)) as [r k].
  cbn. split; [reflexivity|]. split; reflexivity.
Qed.

(** ** The detector and the explainer *)

(** C4, as the code has it. [detectVisualElements] never throws. It returns
    the empty array when the remote call is rejected, when the response has
    no text or an empty one, and when the text is not JSON. A text that is
    JSON is returned as parsed, whatever its shape: nothing is checked
    against the schema. *)
Theorem C4_detection_never_throws :
  forall (env : Env.t) (imageBase64 : Base64) (s : Session.t),
    let answer := Env.generateContent env (detection_request imageBase64) in
    let result := fst (detectVisualElements env imageBase64 s) in
    (forall e, result <> Thrown e)
    /\ (forall e, answer = Thrown e -> result = Done (JArray []))
    /\ (answer = Done None -> result = Done (JArray []))
    /\ (answer = Done (Some EmptyString) -> result = Done (JArray []))
    /\ (forall text,
          answer = Done (Some text) -> Env.JSON_parse env text = None ->
          result = Done (JArray []))
    /\ (forall text v,
          answer = Done (Some text) -> text <> EmptyString ->
          Env.JSON_parse env text = Some v ->
          result = Done v)
    /\ (answer = Pending -> result = Pending).
Proof.
  intros env imageBase64 s answer result. subst answer result.
  unfold detectVisualElements, try_catch, bind, generateContent, emit, settle,
    console_error, ret, JSON_parse.
  cbn.
  destruct (Env.generateContent env (detection_request imageBase64))
    as [[[|c text]|]| e0 |] eqn:Hanswer; cbn.
  - repeat split; try discriminate; try reflexivity.
    intros text v H Hne. injection H as <-. now elim Hne.
  - destruct (Env.JSON_parse env (String c text)) as [v|] eqn:Hparse; cbn.
    + repeat split; try discriminate.
      * intros t H Hnone. injection H as <-. congruence.
      * intros t w H _ Hsome. injection H as <-. congruence.
    + repeat split; try discriminate; try reflexivity.
      intros t w H _ Hsome. injection H as <-. congruence.
  - repeat split; try discriminate; try reflexivity.
  - repeat split; try discriminate; try reflexivity.
  - repeat split; try discriminate; try reflexivity.
Qed.

(** C4 as stated fails: the text [partial_text] is JSON that does not match
    the required schema, and the detector returns its one malformed element
    instead of the empty array. *)
Lemma C4_schema_invalid_response_returned :
  sample_JSON_parse partial_text = Some (JArray [JObject [("label", JString "Chart")]])
  /\ matches_required_schema (JArray [JObject [("label", JString "Chart")]]) = false
  /\ fst (detectVisualElements (sample_env (Done (Some partial_text)))
                               (Base64Of (ReaderResult chart_jpg)) initial_session)
     = Done (JArray [JObject [("label", JString "Chart")]])
  /\ JArray [JObject [("label", JString "Chart")]] <> JArray [].
Proof.
  split; [reflexivity|]. split; [reflexivity|]. split; [reflexivity|discriminate].
Qed.

(** C5, as the code has it. [explainExtractedImage] never throws. When the
    remote call is rejected it returns the fixed string
    [Error generating explanation.]; when the response has no text or an
    empty one it returns the fixed string
    [No explanation could be generated.]; otherwise it returns the text. *)
Theorem C5_explanation_fallbacks :
  forall (env : Env.t) (imageBase64 : Base64) (label : string) (s : Session.t),
    let answer := Env.generateContent env (explanation_request imageBase64 label) in
    let result := fst (explainExtractedImage env imageBase64 label s) in
    (forall e, result <> Thrown e)
    /\ (forall e, answer = Thrown e -> result = Done "Error generating explanation.")
    /\ (answer = Done None -> result = Done "No explanation could be generated.")
    /\ (answer = Done (Some EmptyString) ->
        result = Done "No explanation could be generated.")
    /\ (forall text,
          answer = Done (Some text) -> text <> EmptyString -> result = Done text)
    /\ (answer = Pending -> result = Pending).
Proof.
  intros env imageBase64 label s answer result. subst answer result.
  unfold explainExtractedImage, try_catch, bind, generateContent, emit, settle,
    console_error, ret.
  cbn.
  destruct (Env.generateContent env (explanation_request imageBase64 label))
    as [[[|c text]|]| e0 |] eqn:Hanswer; cbn;
    repeat split; try discriminate; try reflexivity.
  - intros t H Hne. injection H as <-. now elim Hne.
  - intros t H _. injection H as <-. reflexivity.
Qed.

(** C5 as stated fails: there is not one fallback string. A rejected call
    and a response without text give two different strings, so no string is
    the result of both. *)
Lemma C5_two_fallback_strings :
  let on_error :=
    fst (explainExtractedImage (sample_env (Thrown (Error "503")))
                               (Base64Of (ReaderResult chart_jpg)) "Bar Chart"
                               initial_session) in
  let on_no_text :=
    fst (explainExtractedImage (sample_env (Done None))
                               (Base64Of (ReaderResult chart_jpg)) "Bar Chart"
                               initial_session) in
  on_error = Done "Error generating explanation."
  /\ on_no_text = Done "No explanation could be generated."
  /\ (forall fallback : string,
        on_error = Done fallback -> on_no_text = Done fallback -> False).
Proof.
  cbv zeta. split; [reflexivity|]. split; [reflexivity|].
  intros fallback Herror Hnone. cbn in Herror, Hnone.
  injection Herror as <-. discriminate Hnone.
Qed.

(** ** The rasteriser *)

Lemma actualPageNum_in_range (pageNum pageCount : Z) :
  1 <= pageCount -> 1 <= actualPageNum pageNum pageCount <= pageCount.
Proof. unfold actualPageNum. lia. Qed.

Lemma getPage_in_range (pdf : list PdfPage) (n : Z) :
  1 <= n <= Z.of_nat (List.length pdf) ->
  exists page, getPage pdf n = Done page /\ nth_error pdf (Z.to_nat (n - 1)) = Some page.
Proof.
  intros Hn. unfold getPage.
  replace ((1 <=? n) && (n <=? Z.of_nat (List.length pdf))) with true
    by (symmetry; apply andb_true_iff; split; apply Z.leb_le; lia).
  destruct (nth_error pdf (Z.to_nat (n - 1))) as [page|] eqn:Hnth.
  - now exists page.
  - apply nth_error_None in Hnth. lia.
Qed.

(** C6. For a document of pageCount >= 1 pages the requested index is
    clamped into [1, pageCount]: below 1 it becomes 1, above pageCount it
    becomes pageCount, inside the range it is kept. Fetching the clamped
    page never fails, and it is that page which is rasterised: the first
    page for an index below 1, the last page for an index above pageCount;
    with the PDF engine present and the file readable, [getPageImage]
    returns the JPEG of that page rendered at scale 2 (or the engine's
    rendering error), never an invalid-page failure. For an image file the
    index is ignored: the result is the file's data URL whatever the
    index. *)
Theorem C6_page_clamping :
  forall (env : Env.t) (pdf : list PdfPage) (pageNum : Z),
    (1 <= List.length pdf)%nat ->
    let pageCount := Z.of_nat (List.length pdf) in
    let n := actualPageNum pageNum pageCount in
    1 <= n <= pageCount
    /\ (pageNum < 1 -> n = 1)
    /\ (pageCount < pageNum -> n = pageCount)
    /\ (1 <= pageNum <= pageCount -> n = pageNum)
    /\ (exists page,
          getPage pdf n = Done page
          /\ nth_error pdf (Z.to_nat (n - 1)) = Some page
          /\ (pageNum < 1 -> nth_error pdf 0 = Some page)
          /\ (pageCount < pageNum -> nth_error pdf (List.length pdf - 1) = Some page)
          /\ (1 <= pageNum <= pageCount ->
              nth_error pdf (Z.to_nat (pageNum - 1)) = Some page)
          /\ forall file,
               File.content file = PdfBytes pdf ->
               String.prefix "image/" (File.type file) = false ->
               Env.pdfjsLib env = true ->
               File.readable file = true ->
               getPageImage env file pageNum
               = if page_renders page
                 then
                   Done (CanvasDataURL
                           (reflected_dimension 300 (page_width page * 2)%float)
                           (reflected_dimension 150 (page_height page * 2)%float)
                           [RenderPage page
                              {| viewport_width := (page_width page * 2)%float;
                                 viewport_height := (page_height page * 2)%float |}]
                           "image/jpeg" 0.95)
                 else Thrown (Error "The page could not be rendered."))
    /\ (forall file,
          File.content file = PdfBytes pdf ->
          getPageImage env file pageNum = getPageImage env file n)
    /\ (forall image p1 p2,
          String.prefix "image/" (File.type image) = true ->
          getPageImage env image p1 = getPageImage env image p2)
    /\ (forall image p,
          String.prefix "image/" (File.type image) = true ->
          getPageImage env image p
          = if File.readable image then Done (ReaderResult image) else Pending).
Proof.
  intros env pdf pageNum Hlen pageCount n.
  assert (Hcount : 1 <= pageCount) by (subst pageCount; lia).
  pose proof (actualPageNum_in_range pageNum pageCount Hcount) as Hn.
  fold n in Hn.
  assert (Hlow : pageNum < 1 -> n = 1) by (subst n; unfold actualPageNum; lia).
  assert (Hhigh : pageCount < pageNum -> n = pageCount)
    by (subst n; unfold actualPageNum; lia).
  assert (Hmid : 1 <= pageNum <= pageCount -> n = pageNum)
    by (subst n; unfold actualPageNum; lia).
  split; [exact Hn|].
  split; [exact Hlow|]. split; [exact Hhigh|]. split; [exact Hmid|].
  split.
  - destruct (getPage_in_range pdf n Hn) as [page [Hget Hnth]].
    exists page. split; [exact Hget|]. split; [exact Hnth|].
    split; [intros H; rewrite (Hlow H) in Hnth; exact Hnth|].
    split.
    { intros H. rewrite (Hhigh H) in Hnth.
      replace (List.length pdf - 1)%nat with (Z.to_nat (pageCount - 1))
        by (subst pageCount; lia).
      exact Hnth. }
    split; [intros H; rewrite (Hmid H) in Hnth; exact Hnth|].
    intros file Hcontent Htype Hlib Hread.
    unfold getPageImage, arrayBuffer, render.
    rewrite Htype, Hlib, Hread, Hcontent. cbn [negb getDocument obind].
    fold pageCount. fold n. rewrite Hget. cbn [obind].
    destruct (page_renders page); reflexivity.
  - split; [|split].
    + intros file Hcontent. unfold getPageImage, arrayBuffer.
      rewrite Hcontent.
      destruct (String.prefix "image/" (File.type file)); [reflexivity|].
      destruct (negb (Env.pdfjsLib env)); [reflexivity|].
      destruct (File.readable file); [|reflexivity].
      cbn [getDocument obind].
      replace (actualPageNum n (Z.of_nat (List.length pdf))) with n
        by (fold pageCount; unfold actualPageNum; lia).
      reflexivity.
    + intros image p1 p2 Himage. unfold getPageImage. now rewrite Himage.
    + intros image p Himage. unfold getPageImage. now rewrite Himage.
Qed.

(** The three-page booklet asked for page 8 (pageCount + 5): the clamped
    index is 3 and the page rasterised is the last one, the Legal page, as
    a 1224 x 2016 raster. *)
Lemma C6_page_clamping_three_pages :
  1 <= actualPageNum 8 3 <= 3
  /\ (8 < 1 -> actualPageNum 8 3 = 1)
  /\ (3 < 8 -> actualPageNum 8 3 = 3)
  /\ (1 <= 8 <= 3 -> actualPageNum 8 3 = 8)
  /\ (exists page,
        getPage three_pages (actualPageNum 8 3) = Done page
        /\ nth_error three_pages (Z.to_nat (actualPageNum 8 3 - 1)) = Some page
        /\ (8 < 1 -> nth_error three_pages 0 = Some page)
        /\ (3 < 8 -> nth_error three_pages 2 = Some page)
        /\ (1 <= 8 <= 3 -> nth_error three_pages (Z.to_nat (8 - 1)) = Some page)
        /\ forall file,
             File.content file = PdfBytes three_pages ->
             String.prefix "image/" (File.type file) = false ->
             Env.pdfjsLib (sample_env Pending) = true ->
             File.readable file = true ->
             getPageImage (sample_env Pending) file 8
             = if page_renders page
               then
                 Done (CanvasDataURL
                         (reflected_dimension 300 (page_width page * 2)%float)
                         (reflected_dimension 150 (page_height page * 2)%float)
                         [RenderPage page
                            {| viewport_width := (page_width page * 2)%float;
                               viewport_height := (page_height page * 2)%float |}]
                         "image/jpeg" 0.95)
               else Thrown (Error "The page could not be rendered."))
  /\ (forall file,
        File.content file = PdfBytes three_pages ->
        getPageImage (sample_env Pending) file 8
        = getPageImage (sample_env Pending) file (actualPageNum 8 3))
  /\ (forall image p1 p2,
        String.prefix "image/" (File.type image) = true ->
        getPageImage (sample_env Pending) image p1
        = getPageImage (sample_env Pending) image p2)
  /\ (forall image p,
        String.prefix "image/" (File.type image) = true ->
        getPageImage (sample_env Pending) image p
        = if File.readable image then Done (ReaderResult image) else Pending).
Proof.
  apply (C6_page_clamping (sample_env Pending) three_pages 8).
  cbn. lia.
Defined.

(** The same requests, computed: index 8 and index 0 of the booklet, and
    any index of the chart image. *)
Example booklet_page_8_is_last :
  getPageImage (sample_env Pending) booklet_pdf 8
  = Done (CanvasDataURL 1224 2016
            [RenderPage legal_page {| viewport_width := 1224; viewport_height := 2016 |}]
            "image/jpeg" 0.95).
Proof. reflexivity. Qed.

Example booklet_page_0_is_first :
  getPageImage (sample_env Pending) booklet_pdf 0
  = Done (CanvasDataURL 1224 1584
            [RenderPage letter_page {| viewport_width := 1224; viewport_height := 1584 |}]
            "image/jpeg" 0.95).
Proof. reflexivity. Qed.

Example booklet_page_2_is_second :
  getPageImage (sample_env Pending) booklet_pdf 2
  = Done (CanvasDataURL 1190 1684
            [RenderPage a4_page {| viewport_width := 1190; viewport_height := 1684 |}]
            "image/jpeg" 0.95).
Proof. reflexivity. Qed.

(** ** The scan handler *)

Local Arguments extract_items : simpl never.
Local Arguments getPageImage : simpl never.
Local Arguments load_image : simpl never.
Local Arguments detection_request : simpl never.

Ltac unfold_scan :=
  unfold handleScan, handleScan_begin, handleScan_try, handleScan_catch,
    detectVisualElements, generateContent, JSON_parse, extract,
    setIsGenerating, setShowPreview, setExtractedItems, setOriginalImage,
    console_error, alert, try_finally, try_catch, bind, ret, emit, settle.

(** Every way a scan can go: how rasterisation settles, how the remote call
    settles and what its text parses to, whether the page image loads, how
    the cropping loop ends. *)
Ltac scan_cases env file pageNumber s :=
  unfold_scan; cbn;
  destruct (getPageImage env file pageNumber) as [url| ? |]; cbn;
  [ destruct (Env.generateContent env (detection_request (Base64Of url)))
      as [[[|? ?]|]| ? |]; cbn;
    try (match goal with
         | |- context [Env.JSON_parse env ?t] => destruct (Env.JSON_parse env t); cbn
         end);
    destruct (load_image url) as [img| ? |]; cbn;
    try (match goal with
         | |- context [extract_items ?a ?b img ?d ?n] =>
             destruct (extract_items a b img d n) as [[?| ? |] ?]; cbn
         end)
  | | ].





(** C9. A scan without a file returns at once and leaves the session as it
    was: the loading flag, the preview flag, the page image and the item
    list are not written, and nothing is journalled. *)
Theorem C9_scan_without_file :
  forall (env : Env.t) (pageNumber : Z) (s : Session.t),
    let run := handleScan env pageNumber None s in
    let st := Session.react (snd run) in
    fst run = Done tt
    /\ AppState.isGenerating st = AppState.isGenerating (Session.react s)
    /\ AppState.showPreview st = AppState.showPreview (Session.react s)
    /\ AppState.originalImage st = AppState.originalImage (Session.react s)
    /\ AppState.extractedItems st = AppState.extractedItems (Session.react s)
    /\ Session.journal (snd run) = Session.journal s
    /\ snd run = s.
Proof.
  intros env pageNumber s. cbv zeta.
  unfold handleScan, ret. cbn [fst snd].
  repeat (split; [reflexivity|]). reflexivity.
Qed.



(** ** A scan that succeeds *)

(** When the page rasterises, the detector answers a well-typed list and the
    page image loads, the scan ends with the page image and one item per
    detection in the state, the preview shown and the loading flag down. *)
Lemma handleScan_stores_items
    (env : Env.t) (pageNumber : Z) (file : File.t) (s : Session.t)
    (url : DataURL) (text : string) (img : HTMLImage.t) (ds : list VisualElement.t) :
  getPageImage env file pageNumber = Done url ->
  Env.generateContent env (detection_request (Base64Of url)) = Done (Some text) ->
  text <> EmptyString ->
  Env.JSON_parse env text = Some (js_of_detections ds) ->
  load_image url = Done img ->
  let run := handleScan env pageNumber (Some file) s in
  fst run = Done tt
  /\ Session.react (snd run)
     = {| AppState.isGenerating := false;
          AppState.originalImage := Some url;
          AppState.extractedItems :=
            items_of (Env.randomUUID env) img (Session.uuids s) ds;
          AppState.showPreview := true |}.
Proof.
  intros Hpage Hanswer Htext Hparse Himg. cbv zeta.
  destruct text as [|c text]; [now elim Htext|].
  unfold_scan. cbn. rewrite Hpage. cbn. rewrite Hanswer. cbn.
  rewrite Hparse. cbn. rewrite Himg. cbn.
  rewrite extract_items_well_typed. cbn. split; reflexivity.
Qed.

(** The end-to-end scenario: the 800 x 600 page [chart_jpg] and the
    detector answer [chart_text]. *)
Example chart_scan :
  Session.react
    (snd (handleScan (sample_env (Done (Some chart_text))) 1 (Some chart_jpg)
                     initial_session))
  = {| AppState.isGenerating := false;
       AppState.originalImage := Some (ReaderResult chart_jpg);
       AppState.extractedItems :=
         [{| ExtractedItem.id := "id-0";
             ExtractedItem.label := JString "Bar Chart";
             ExtractedItem.dataUrl :=
               CanvasDataURL 480 180
                 [ClearRect 0 0 480 180;
                  DrawImage (ReaderResult chart_jpg) 800 600
                            160 60 480 180 0 0 480 180]
                 "image/jpeg" 0.9;
             ExtractedItem.description := JString "Sales by year" |}];
       AppState.showPreview := true |}.
Proof. reflexivity. Qed.

(** A reset from any state gives the idle state. *)
Lemma handleReset_clears (s : Session.t) :
  fst (handleReset s) = Done tt
  /\ Session.react (snd (handleReset s)) = initial_state.
Proof. split; reflexivity. Qed.

(** A file announced as an image whose bytes do not decode: nothing throws,
    the promise on [img.onload] never settles, and the scan stays in its
    loading state without any notice. *)
Example undecodable_image_scan_pends :
  let file := {| File.type := "image/png";
                 File.content := OtherBytes;
                 File.readable := true |} in
  let run := handleScan (sample_env (Done (Some "[]"))) 1 (Some file) initial_session in
  fst run = Pending
  /\ AppState.isGenerating (Session.react (snd run)) = true
  /\ Session.journal (snd run)
     = [SetIsGenerating true; SetShowPreview true; SetExtractedItems [];
        Rasterize file 1;
        SetOriginalImage (Some (ReaderResult file));
        GenerateContent (detection_request (Base64Of (ReaderResult file)))].
Proof. split; [reflexivity|]. split; reflexivity. Qed.

(** * Further properties *)

(** ** The two remote calls, step by step *)

Lemma detectVisualElements_run (env : Env.t) (imageBase64 : Base64) (s : Session.t) :
  detectVisualElements env imageBase64 s
  = let request := detection_request imageBase64 in
    let s1 := logged (GenerateContent request) s in
    match Env.generateContent env request with
    | Done (Some (String c text)) =>
        match Env.JSON_parse env (String c text) with
        | Some v => (Done v, s1)
        | None =>
            (Done (JArray []),
             logged (ConsoleError "Detection Error:" (SyntaxError "JSON.parse")) s1)
        end
    | Done _ => (Done (JArray []), s1)
    | Thrown e => (Done (JArray []), logged (ConsoleError "Detection Error:" e) s1)
    | Pending => (Pending, s1)
    end.
Proof.
  unfold detectVisualElements, try_catch, bind, generateContent, emit, settle,
    console_error, ret, JSON_parse, logged.
  cbn.
  destruct (Env.generateContent env (detection_request imageBase64))
    as [[[|c text]|]| e |]; cbn; try reflexivity.
  destruct (Env.JSON_parse env (String c text)); reflexivity.
Qed.

Lemma explainExtractedImage_run
    (env : Env.t) (imageBase64 : Base64) (label : string) (s : Session.t) :
  explainExtractedImage env imageBase64 label s
  = let request := explanation_request imageBase64 label in
    let s1 := logged (GenerateContent request) s in
    match Env.generateContent env request with
    | Done (Some (String c text)) => (Done (String c text), s1)
    | Done _ => (Done "No explanation could be generated.", s1)
    | Thrown e =>
        (Done "Error generating explanation.",
         logged (ConsoleError "Explanation Error:" e) s1)
    | Pending => (Pending, s1)
    end.
Proof.
  unfold explainExtractedImage, try_catch, bind, generateContent, emit, settle,
    console_error, ret, logged.
  cbn.
  destruct (Env.generateContent env (explanation_request imageBase64 label))
    as [[[|c text]|]| e |]; reflexivity.
Qed.

(** X1. A call of [detectVisualElements] makes one attempt: its request is
    journalled once, first, and is followed by at most one logged error, for
    a rejection or a text that does not parse. It writes no state cell and
    draws no identifier, and an error is logged only when the result is the
    empty array. *)
Theorem detection_single_attempt :
  forall (env : Env.t) (imageBase64 : Base64) (s : Session.t),
    let run := detectVisualElements env imageBase64 s in
    Session.react (snd run) = Session.react s
    /\ Session.uuids (snd run) = Session.uuids s
    /\ exists errors,
         Session.journal (snd run)
         = (Session.journal s
            ++ GenerateContent (detection_request imageBase64) :: errors)%list
         /\ (errors = []
             \/ exists e,
                  errors = [ConsoleError "Detection Error:" e]
                  /\ fst run = Done (JArray [])).
Proof.
  intros env imageBase64 s. cbv zeta. rewrite detectVisualElements_run. cbv zeta.
  destruct (Env.generateContent env (detection_request imageBase64))
    as [[[|c text]|]| e |];
    [ | destruct (Env.JSON_parse env (String c text)) | | | ];
    unfold logged, emit; cbn; rewrite <- ?app_assoc; cbn [app];
    (split; [reflexivity|]); (split; [reflexivity|]);
    eexists; (split; [reflexivity|]);
    try (left; reflexivity); right; eexists; split; reflexivity.
Qed.

(** X2. A call of [explainExtractedImage] makes one attempt, writes no
    state cell and draws no identifier; it never throws, and a text it
    returns is never empty. *)
Theorem explanation_single_attempt_nonempty :
  forall (env : Env.t) (imageBase64 : Base64) (label : string) (s : Session.t),
    let run := explainExtractedImage env imageBase64 label s in
    Session.react (snd run) = Session.react s
    /\ Session.uuids (snd run) = Session.uuids s
    /\ (exists errors,
          Session.journal (snd run)
          = (Session.journal s
             ++ GenerateContent (explanation_request imageBase64 label) :: errors)%list
          /\ (errors = [] \/ exists e, errors = [ConsoleError "Explanation Error:" e]))
    /\ (forall e, fst run <> Thrown e)
    /\ (forall text, fst run = Done text -> text <> EmptyString).
Proof.
  intros env imageBase64 label s. cbv zeta. rewrite explainExtractedImage_run. cbv zeta.
  destruct (Env.generateContent env (explanation_request imageBase64 label))
    as [[[|c text]|]| e |];
    unfold logged, emit; cbn; rewrite <- ?app_assoc; cbn [app];
    (split; [reflexivity|]); (split; [reflexivity|]);
    (split; [eexists; split; [reflexivity|];
             try (left; reflexivity); right; eexists; reflexivity|]);
    (split; [discriminate|]);
    intros t H; try discriminate H; injection H as <-; discriminate.
Qed.

(** ** Scans that fail early, and scans that find nothing *)

(** X3. When rasterisation throws, the scan stops there: the journal is
    the three starting updates, the entry into [getPageImage], the logged
    failure, the alert and the two closing updates. No request reaches the
    remote service, and the page image is what it was before the scan. *)
Theorem rasterisation_failure_stops_scan :
  forall (env : Env.t) (pageNumber : Z) (file : File.t) (s : Session.t) (e : JSError),
    getPageImage env file pageNumber = Thrown e ->
    let run := handleScan env pageNumber (Some file) s in
    fst run = Done tt
    /\ Session.journal (snd run)
       = (Session.journal s
          ++ [SetIsGenerating true; SetShowPreview true; SetExtractedItems [];
              Rasterize file pageNumber;
              ConsoleError "Scanning failed:" e;
              Alert "Extraction failed. Check the console for details.";
              SetShowPreview false;
              SetIsGenerating false])%list
    /\ filter is_remote_call (Session.journal (snd run))
       = filter is_remote_call (Session.journal s)
    /\ AppState.originalImage (Session.react (snd run))
       = AppState.originalImage (Session.react s).
Proof.
  intros env pageNumber file s e Hpage. cbv zeta.
  unfold_scan. cbn. rewrite Hpage. cbn. rewrite <- !app_assoc. cbn [app].
  split; [reflexivity|]. split; [reflexivity|]. split; [|reflexivity].
  rewrite filter_app. cbn. now rewrite app_nil_r.
Qed.

(** A text file handed to the scan: the PDF engine rejects it. *)
Lemma rasterisation_failure_stops_scan_text_file :
  let run := handleScan (sample_env (Done (Some chart_text))) 1 (Some notes_txt)
                        initial_session in
  fst run = Done tt
  /\ Session.journal (snd run)
     = [SetIsGenerating true; SetShowPreview true; SetExtractedItems [];
        Rasterize notes_txt 1;
        ConsoleError "Scanning failed:" (Error "Invalid PDF structure.");
        Alert "Extraction failed. Check the console for details.";
        SetShowPreview false;
        SetIsGenerating false]
  /\ filter is_remote_call (Session.journal (snd run)) = []
  /\ AppState.originalImage (Session.react (snd run)) = None.
Proof.
  exact (rasterisation_failure_stops_scan (sample_env (Done (Some chart_text))) 1
           notes_txt initial_session (Error "Invalid PDF structure.") eq_refl).
Defined.

Lemma extract_items_nil (tonum : JSValue -> float) (uuid : nat -> string)
    (img : HTMLImage.t) (n : nat) :
  extract_items tonum uuid img (JArray []) n = (Done [], n).
Proof. reflexivity. Qed.

(** X4. When the page rasterises and loads but the detector is left with
    nothing (the call is rejected, the response has no text, or the text is
    not JSON), the scan completes all the same: no alert is raised, the
    state holds the page and an empty item list, and the preview shows the
    caption [0 Elements Discovered] with the notice that no visual element
    was detected, exactly as for a page without visual elements. *)
Theorem detector_failure_shows_empty_result :
  forall (env : Env.t) (pageNumber : Z) (file : File.t) (s : Session.t)
         (url : DataURL) (img : HTMLImage.t),
    getPageImage env file pageNumber = Done url ->
    load_image url = Done img ->
    no_detections env (detection_request (Base64Of url)) ->
    let run := handleScan env pageNumber (Some file) s in
    let st := Session.react (snd run) in
    fst run = Done tt
    /\ st = {| AppState.isGenerating := false;
               AppState.originalImage := Some url;
               AppState.extractedItems := [];
               AppState.showPreview := true |}
    /\ (exists evs,
          Session.journal (snd run) = (Session.journal s ++ evs)%list
          /\ filter is_alert evs = [])
    /\ preview_header (preview_props st) = "0 Elements Discovered"
    /\ preview_empty_notice (preview_props st) = true
    /\ LivePreview.cards_shown (preview_props st) = [].
Proof.
  intros env pageNumber file s url img Hpage Himg Hnone. cbv zeta.
  unfold no_detections in Hnone.
  unfold_scan. cbn. rewrite Hpage. cbn.
  destruct (Env.generateContent env (detection_request (Base64Of url)))
    as [[[|c text]|]| e |]; cbn; try contradiction.
  - rewrite Himg. cbn. rewrite extract_items_nil. cbn.
    rewrite <- !app_assoc. cbn [app].
    repeat (split; [reflexivity|]). split; [|repeat split].
    eexists. split; reflexivity.
  - destruct Hnone as [Hnone|Hnone]; [discriminate Hnone|]. rewrite Hnone. cbn.
    rewrite Himg. cbn. rewrite extract_items_nil. cbn.
    rewrite <- !app_assoc. cbn [app].
    repeat (split; [reflexivity|]). split; [|repeat split].
    eexists. split; reflexivity.
  - rewrite Himg. cbn. rewrite extract_items_nil. cbn.
    rewrite <- !app_assoc. cbn [app].
    repeat (split; [reflexivity|]). split; [|repeat split].
    eexists. split; reflexivity.
  - rewrite Himg. cbn. rewrite extract_items_nil. cbn.
    rewrite <- !app_assoc. cbn [app].
    repeat (split; [reflexivity|]). split; [|repeat split].
    eexists. split; reflexivity.
Qed.

(** The chart page with a remote service that answers 503. *)
Lemma detector_failure_shows_empty_result_503 :
  let run := handleScan (sample_env (Thrown (Error "503"))) 1 (Some chart_jpg)
                        initial_session in
  let st := Session.react (snd run) in
  fst run = Done tt
  /\ st = {| AppState.isGenerating := false;
             AppState.originalImage := Some (ReaderResult chart_jpg);
             AppState.extractedItems := [];
             AppState.showPreview := true |}
  /\ (exists evs,
        Session.journal (snd run) = evs /\ filter is_alert evs = [])
  /\ preview_header (preview_props st) = "0 Elements Discovered"
  /\ preview_empty_notice (preview_props st) = true
  /\ LivePreview.cards_shown (preview_props st) = [].
Proof.
  exact (detector_failure_shows_empty_result (sample_env (Thrown (Error "503"))) 1
           chart_jpg initial_session (ReaderResult chart_jpg) chart_img
           eq_refl eq_refl I).
Defined.

(** ** More on the cropping loop *)

Section MoreCroppingFacts.

Variable ToNumber_ext : JSValue -> float.
Variable randomUUID : nat -> string.
Variable img : HTMLImage.t.

Lemma crop_loop_after_well_typed (ds : list VisualElement.t) (rest : list JSValue) :
  forall items canvas n,
  exists canvas',
    crop_loop ToNumber_ext randomUUID img (map js_of_VisualElement ds ++ rest)%list
              items canvas n
    = crop_loop ToNumber_ext randomUUID img rest
                (items ++ items_of randomUUID img n ds)%list canvas'
                (n + List.length ds)%nat.
Proof.
  induction ds as [|d ds IH]; intros items canvas n.
  - exists canvas. cbn. now rewrite app_nil_r, Nat.add_0_r.
  - destruct (crop_step_well_typed ToNumber_ext randomUUID img d canvas n) as [c Hstep].
    destruct (IH (items ++ [item_of (randomUUID n) img d])%list c (S n)) as [c' Hloop].
    exists c'. cbn [map app crop_loop List.length items_of]. rewrite Hstep, Hloop.
    now rewrite <- app_assoc, Nat.add_succ_r.
Qed.

Lemma crop_step_unreadable_box (det : JSValue) :
  unreadable_box det = true ->
  exists e, forall canvas n,
    crop_step ToNumber_ext randomUUID img det canvas n = Thrown e.
Proof.
  unfold unreadable_box, crop_step, destructure4.
  destruct (Get det "box_2d") as [box| e |]; cbn [obind].
  - destruct (GetIterator box) as [elems| e |]; cbn [obind]; intros Hbad;
      try discriminate Hbad.
    exists e. reflexivity.
  - intros _. exists e. reflexivity.
  - intros Hbad. discriminate Hbad.
Qed.

Lemma items_of_ids (ds : list VisualElement.t) (n : nat) :
  map ExtractedItem.id (items_of randomUUID img n ds)
  = map randomUUID (seq n (List.length ds)).
Proof.
  revert n; induction ds as [|d ds IH]; intros n; cbn; [reflexivity|].
  rewrite IH. f_equal. now destruct d as [l [[[ymin xmin] ymax] xmax] descr].
Qed.

Lemma NoDup_map_seq (n len : nat) :
  (forall i j, randomUUID i = randomUUID j -> i = j) ->
  NoDup (map randomUUID (seq n len)).
Proof.
  intros Hinj. revert n; induction len as [|len IH]; intros n; cbn.
  - constructor.
  - constructor; [|apply IH].
    intros Hin. apply in_map_iff in Hin. destruct Hin as [k [Hk Hin]].
    apply Hinj in Hk. subst k. apply in_seq in Hin. lia.
Qed.

End MoreCroppingFacts.

(** X5. One detection without a readable box loses the whole page: when
    the detections before it are well-typed and it has no [box_2d] to
    iterate over, the loop throws at it, after one identifier was drawn for
    each detection before it; the items already built are dropped with the
    local list, and the detections after it are never looked at. *)
Theorem unreadable_box_loses_all_items :
  forall (ToNumber_ext : JSValue -> float) (randomUUID : nat -> string)
         (img : HTMLImage.t) (ds : list VisualElement.t) (bad : JSValue)
         (rest : list JSValue) (n : nat),
    unreadable_box bad = true ->
    exists e,
      extract_items ToNumber_ext randomUUID img
                    (JArray (map js_of_VisualElement ds ++ bad :: rest)%list) n
      = (Thrown e, (n + List.length ds)%nat)
      /\ forall rest' n',
           fst (extract_items ToNumber_ext randomUUID img
                              (JArray (map js_of_VisualElement ds ++ bad :: rest')%list) n')
           = Thrown e.
Proof.
  intros tonum uuid img ds bad rest n Hbad.
  destruct (crop_step_unreadable_box tonum uuid img bad Hbad) as [e Hstep].
  exists e.
  assert (Hgen : forall rest' n',
             extract_items tonum uuid img
               (JArray (map js_of_VisualElement ds ++ bad :: rest')%list) n'
             = (Thrown e, (n' + List.length ds)%nat)).
  { intros rest' n'. unfold extract_items. cbn [GetIterator].
    destruct (crop_loop_after_well_typed tonum uuid img ds (bad :: rest')
                [] createCanvas n') as [c Hloop].
    rewrite Hloop. cbn [crop_loop]. rewrite Hstep. reflexivity. }
  split; [apply Hgen|].
  intros rest' n'. now rewrite Hgen.
Qed.

(** The chart followed by an object that has a label only. *)
Lemma unreadable_box_loses_all_items_chart :
  exists e,
    extract_items (fun _ => nan) sample_randomUUID chart_img
                  (JArray [js_of_VisualElement bar_chart;
                           JObject [("label", JString "Chart")];
                           js_of_VisualElement flipped_chart]) 0
    = (Thrown e, 1%nat)
    /\ forall rest' n',
         fst (extract_items (fun _ => nan) sample_randomUUID chart_img
                (JArray (js_of_VisualElement bar_chart
                         :: JObject [("label", JString "Chart")] :: rest')) n')
         = Thrown e.
Proof.
  exact (unreadable_box_loses_all_items (fun _ => nan) sample_randomUUID chart_img
           [bar_chart] (JObject [("label", JString "Chart")])
           [js_of_VisualElement flipped_chart] 0 eq_refl).
Defined.

(** X6. The items of a scan take their identifiers from consecutive draws
    of [crypto.randomUUID], in the order of the detections; when no two
    draws agree, no two items of the scan share an identifier. *)
Theorem item_ids_distinct :
  forall (ToNumber_ext : JSValue -> float) (randomUUID : nat -> string)
         (img : HTMLImage.t) (ds : list VisualElement.t) (n : nat),
    (forall i j, randomUUID i = randomUUID j -> i = j) ->
    exists items,
      extract_items ToNumber_ext randomUUID img (js_of_detections ds) n
      = (Done items, (n + List.length ds)%nat)
      /\ map ExtractedItem.id items = map randomUUID (seq n (List.length ds))
      /\ NoDup (map ExtractedItem.id items).
Proof.
  intros tonum uuid img ds n Hinj.
  exists (items_of uuid img n ds).
  split; [apply extract_items_well_typed|].
  split; [apply items_of_ids|].
  rewrite items_of_ids. now apply NoDup_map_seq.
Qed.

Lemma sample_randomUUID_injective (i j : nat) :
  sample_randomUUID i = sample_randomUUID j -> i = j.
Proof.
  unfold sample_randomUUID. cbn. intros H. injection H as H.
  rewrite <- (DecimalNat.Unsigned.of_to i), <- (DecimalNat.Unsigned.of_to j).
  f_equal.
  assert (Hsome : Some (Nat.to_uint i) = Some (Nat.to_uint j)).
  { rewrite <- (NilEmpty.usu (Nat.to_uint i)), <- (NilEmpty.usu (Nat.to_uint j)).
    now rewrite H. }
  now injection Hsome.
Qed.

(** Two detections of the chart page get two identifiers. *)
Lemma item_ids_distinct_chart :
  exists items,
    extract_items (fun _ => nan) sample_randomUUID chart_img
                  (js_of_detections [bar_chart; flipped_chart]) 0
    = (Done items, 2%nat)
    /\ map ExtractedItem.id items = ["id-0"; "id-1"]
    /\ NoDup (map ExtractedItem.id items).
Proof.
  exact (item_ids_distinct (fun _ => nan) sample_randomUUID chart_img
           [bar_chart; flipped_chart] 0 sample_randomUUID_injective).
Defined.

(** ** Rasterising a PDF *)

(** X7. With the PDF engine loaded, a readable PDF of at least one page,
    all of which render, rasterises for every requested page index: the
    result is the JPEG (quality 0.95) of a canvas that holds the clamped
    page rendered at scale 2 and whose size is the page's size doubled and
    truncated; when that size is not zero the image element then loads with
    the same width and height. *)
Theorem pdf_rasterisation_succeeds :
  forall (env : Env.t) (file : File.t) (pdf : list PdfPage) (pageNum : Z),
    Env.pdfjsLib env = true ->
    String.prefix "image/" (File.type file) = false ->
    File.readable file = true ->
    File.content file = PdfBytes pdf ->
    (1 <= List.length pdf)%nat ->
    Forall (fun page => page_renders page = true) pdf ->
    exists page,
      nth_error pdf
        (Z.to_nat (actualPageNum pageNum (Z.of_nat (List.length pdf)) - 1))
      = Some page
      /\ let w := reflected_dimension 300 (page_width page * 2)%float in
         let h := reflected_dimension 150 (page_height page * 2)%float in
         let url :=
           CanvasDataURL w h
             [RenderPage page {| viewport_width := (page_width page * 2)%float;
                                 viewport_height := (page_height page * 2)%float |}]
             "image/jpeg" 0.95 in
         getPageImage env file pageNum = Done url
         /\ (0 < w -> 0 < h ->
             load_image url
             = Done {| HTMLImage.src := url; HTMLImage.width := w; HTMLImage.height := h |}).
Proof.
  intros env file pdf pageNum Hlib Htype Hread Hcontent Hlen Hrender.
  assert (Hn : 1 <= actualPageNum pageNum (Z.of_nat (List.length pdf))
               <= Z.of_nat (List.length pdf))
    by (apply actualPageNum_in_range; lia).
  destruct (getPage_in_range pdf _ Hn) as [page [Hget Hnth]].
  exists page. split; [exact Hnth|]. cbv zeta.
  assert (Hok : page_renders page = true).
  { apply nth_error_In in Hnth. rewrite Forall_forall in Hrender. now apply Hrender. }
  split.
  - unfold getPageImage, arrayBuffer, render.
    rewrite Htype, Hlib, Hread, Hcontent. cbn [negb getDocument obind].
    rewrite Hget. cbn [obind]. rewrite Hok. reflexivity.
  - intros Hw Hh. unfold load_image, decoded_size.
    apply Z.ltb_lt in Hw, Hh. now rewrite Hw, Hh.
Qed.

(** Page 0 of the ten-page report: page 1, as a 1224 x 1584 raster. *)
Lemma pdf_rasterisation_succeeds_report :
  exists page,
    nth_error ten_pages (Z.to_nat (actualPageNum 0 10 - 1)) = Some page
    /\ let w := reflected_dimension 300 (page_width page * 2)%float in
       let h := reflected_dimension 150 (page_height page * 2)%float in
       let url :=
         CanvasDataURL w h
           [RenderPage page {| viewport_width := (page_width page * 2)%float;
                               viewport_height := (page_height page * 2)%float |}]
           "image/jpeg" 0.95 in
       getPageImage (sample_env Pending) report_pdf 0 = Done url
       /\ (0 < w -> 0 < h ->
           load_image url
           = Done {| HTMLImage.src := url; HTMLImage.width := w; HTMLImage.height := h |}).
Proof.
  apply (pdf_rasterisation_succeeds (sample_env Pending) report_pdf ten_pages 0);
    try reflexivity.
  - cbn. lia.
  - repeat constructor.
Defined.

(** The raster of that page, computed. *)
Example report_page_raster :
  getPageImage (sample_env Pending) report_pdf 0
  = Done (CanvasDataURL 1224 1584
            [RenderPage letter_page {| viewport_width := 1224; viewport_height := 1584 |}]
            "image/jpeg" 0.95).
Proof. reflexivity. Qed.

(** ** A reset while the detector is awaited *)

(** [handleScan] is [scan_start] followed, once the request has settled,
    by [scan_resume], or by [scan_abort] when rasterisation has thrown. *)
Lemma handleScan_start_resume
    (env : Env.t) (pageNumber : Z) (file : File.t) (s : Session.t) :
  handleScan env pageNumber (Some file) s
  = match scan_start env pageNumber file s with
    | (Done url, s1) =>
        scan_resume env url
          (Env.generateContent env (detection_request (Base64Of url))) s1
    | (Thrown e, s1) => scan_abort e s1
    | (Pending, s1) => (Pending, s1)
    end.
Proof.
  unfold scan_start, scan_resume, scan_abort, detect_resume.
  unfold_scan. cbn.
  destruct (getPageImage env file pageNumber) as [url| e |]; reflexivity.
Qed.

(** X8. A reset does not cancel a scan that awaits the detector. After
    [handleReset] the state is the idle one; when the request then settles,
    the rest of the scan runs on that state. Whatever the answer, the
    preview stays hidden, the page image stays cleared and the loading flag
    stays down; but for a well-typed answer the items of the abandoned scan
    are stored, and for an answer the loop cannot iterate over the failure
    alert is raised. *)
Theorem reset_does_not_cancel_scan :
  forall (env : Env.t) (pageNumber : Z) (file : File.t) (s s1 : Session.t)
         (url : DataURL),
    scan_start env pageNumber file s = (Done url, s1) ->
    let s2 := snd (handleReset s1) in
    Session.react s2 = initial_state
    /\ (forall answer,
          let st := Session.react (snd (scan_resume env url answer s2)) in
          AppState.showPreview st = false
          /\ AppState.originalImage st = None
          /\ AppState.isGenerating st = false)
    /\ (forall text ds img,
          text <> EmptyString ->
          Env.JSON_parse env text = Some (js_of_detections ds) ->
          load_image url = Done img ->
          AppState.extractedItems
            (Session.react (snd (scan_resume env url (Done (Some text)) s2)))
          = items_of (Env.randomUUID env) img (Session.uuids s1) ds)
    /\ (forall text v img e,
          text <> EmptyString ->
          Env.JSON_parse env text = Some v ->
          load_image url = Done img ->
          GetIterator v = Thrown e ->
          Session.journal (snd (scan_resume env url (Done (Some text)) s2))
          = (Session.journal s2
             ++ [ConsoleError "Scanning failed:" e;
                 Alert "Extraction failed. Check the console for details.";
                 SetShowPreview false;
                 SetIsGenerating false])%list).
Proof.
  intros env pageNumber file s s1 url _. cbv zeta.
  split; [reflexivity|]. split; [|split].
  - intros answer.
    unfold scan_resume, detect_resume. unfold_scan. cbn.
    destruct answer as [[[|c text]|]| e |]; cbn;
      try (match goal with
           | |- context [Env.JSON_parse env ?t] => destruct (Env.JSON_parse env t); cbn
           end);
      destruct (load_image url) as [img| ? |]; cbn;
      try (match goal with
           | |- context [extract_items ?a ?b img ?d ?n] =>
               destruct (extract_items a b img d n) as [[?| ? |] ?]; cbn
           end);
      repeat split.
  - intros text ds img Htext Hparse Himg.
    destruct text as [|c text]; [now elim Htext|].
    unfold scan_resume, detect_resume. unfold_scan. cbn.
    rewrite Hparse. cbn. rewrite Himg. cbn.
    rewrite extract_items_well_typed. reflexivity.
  - intros text v img e Htext Hparse Himg Hiter.
    destruct text as [|c text]; [now elim Htext|].
    unfold scan_resume, detect_resume. unfold_scan. cbn.
    rewrite Hparse. cbn. rewrite Himg. cbn.
    unfold extract_items. rewrite Hiter. cbn.
    rewrite <- !app_assoc. reflexivity.
Qed.

(** The scan of the chart page, reset while the detector is awaited. *)
Lemma reset_does_not_cancel_scan_chart :
  let env := sample_env (Done (Some chart_text)) in
  let s1 := snd (scan_start env 1 chart_jpg initial_session) in
  let s2 := snd (handleReset s1) in
  let url := ReaderResult chart_jpg in
  Session.react s2 = initial_state
  /\ (forall answer,
        let st := Session.react (snd (scan_resume env url answer s2)) in
        AppState.showPreview st = false
        /\ AppState.originalImage st = None
        /\ AppState.isGenerating st = false)
  /\ (forall text ds img,
        text <> EmptyString ->
        Env.JSON_parse env text = Some (js_of_detections ds) ->
        load_image url = Done img ->
        AppState.extractedItems
          (Session.react (snd (scan_resume env url (Done (Some text)) s2)))
        = items_of (Env.randomUUID env) img (Session.uuids s1) ds)
  /\ (forall text v img e,
        text <> EmptyString ->
        Env.JSON_parse env text = Some v ->
        load_image url = Done img ->
        GetIterator v = Thrown e ->
        Session.journal (snd (scan_resume env url (Done (Some text)) s2))
        = (Session.journal s2
           ++ [ConsoleError "Scanning failed:" e;
               Alert "Extraction failed. Check the console for details.";
               SetShowPreview false;
               SetIsGenerating false])%list).
Proof.
  exact (reset_does_not_cancel_scan (sample_env (Done (Some chart_text))) 1 chart_jpg
           initial_session
           (snd (scan_start (sample_env (Done (Some chart_text))) 1 chart_jpg
                            initial_session))
           (ReaderResult chart_jpg) eq_refl).
Defined.

(** The same run, computed: the reset session ends up holding the chart's
    item, with no page image and the preview hidden. *)
Example stale_chart_items_stored :
  let env := sample_env (Done (Some chart_text)) in
  let s1 := snd (scan_start env 1 chart_jpg initial_session) in
  let s2 := snd (handleReset s1) in
  Session.react (snd (scan_resume env (ReaderResult chart_jpg)
                                  (Done (Some chart_text)) s2))
  = {| AppState.isGenerating := false;
       AppState.originalImage := None;
       AppState.extractedItems := [item_of "id-0" chart_img bar_chart];
       AppState.showPreview := false |}.
Proof. reflexivity. Qed.

(** ** The explanation panel *)

(** X9. The effect of the explanation panel never throws and writes no
    state cell of [App]. When the remote call settles, the panel leaves its
    loading state and shows a text that is not empty (the explanation or
    one of the two fallbacks); as long as the call does not settle, the panel
    keeps showing its placeholder. *)
Theorem explanation_panel_settles :
  forall (ToString_ext : JSValue -> string) (env : Env.t) (item : ExtractedItem.t)
         (st : ExplanationPanel.State) (s : Session.t),
    let '(r, st', s') := getExp ToString_ext env item st s in
    (forall e, r <> Thrown e)
    /\ Session.react s' = Session.react s
    /\ (r = Done tt ->
        ExplanationPanel.loading st' = false
        /\ exists text,
             ExplanationPanel.explanation st' = Some text
             /\ text <> EmptyString
             /\ ExplanationPanel.body st' = ExplanationPanel.Text (Some text))
    /\ (r = Pending ->
        ExplanationPanel.body st' = ExplanationPanel.Skeleton
        /\ ExplanationPanel.explanation st' = ExplanationPanel.explanation st
        /\ Env.generateContent env
             (explanation_request (Base64Of (ExtractedItem.dataUrl item))
                                  (ToString ToString_ext (ExtractedItem.label item)))
           = Pending).
Proof.
  intros tostr env item st s. unfold getExp.
  rewrite explainExtractedImage_run. cbv zeta.
  destruct (Env.generateContent env _) as [[[|c text]|]| e |];
    unfold logged, emit; cbn;
    (split; [discriminate|]); (split; [reflexivity|]).
  5: { split; [intros H; discriminate H|]. intros _. repeat split. }
  all: split; [|intros H; discriminate H].
  all: intros _; (split; [reflexivity|]); eexists;
    (split; [reflexivity|]); (split; [discriminate|reflexivity]).
Qed.

(** ** The input area *)

Lemma or_one_truthy (x : float) : InputArea.truthy (InputArea.or_one x) = true.
Proof.
  unfold InputArea.truthy, InputArea.or_one.
  destruct (PrimFloat.is_nan x || PrimFloat.is_zero x) eqn:Hfalsy.
  - reflexivity.
  - now rewrite Hfalsy.
Qed.

Lemma handleFileSelect_invariant (file : File.t) (st : InputArea.State) :
  input_invariant st ->
  input_invariant (fst (InputArea.handleFileSelect file st))
  /\ forall page f,
       In (InputArea.OnGenerate page f) (snd (InputArea.handleFileSelect file st)) ->
       False.
Proof.
  intros [Hfile Hpage]. unfold InputArea.handleFileSelect.
  destruct (InputArea.accepted file) eqn:Hacc; cbn.
  - split; [|intros page f []].
    split; [|exact Hpage]. cbn. intros f Hf. now injection Hf as <-.
  - split; [now split|]. intros page f [H|[]]. discriminate H.
Qed.

Lemma handle_invariant (parseInt : string -> float) (props : InputArea.Props)
    (a : InputArea.Action) (st : InputArea.State) :
  input_invariant st ->
  input_invariant (fst (InputArea.handle parseInt props a st))
  /\ forall page file,
       In (InputArea.OnGenerate page file) (snd (InputArea.handle parseInt props a st)) ->
       InputArea.accepted file = true /\ InputArea.truthy page = true.
Proof.
  intros Hinv. pose proof Hinv as [Hfile Hpage].
  destruct a as [files|files| | | | |value]; cbn [InputArea.handle].
  - unfold InputArea.handleFileChange. destruct files as [|file files].
    + cbn. split; [exact Hinv|]. intros page f [].
    + destruct (handleFileSelect_invariant file st Hinv) as [Hst Hnone].
      split; [exact Hst|]. intros page f Hin. now elim (Hnone page f).
  - unfold InputArea.handleDrop.
    assert (Hdrag : input_invariant (InputArea.setIsDragging false st)) by (now split).
    destruct (InputArea.disabled props || InputArea.isGenerating props); cbn.
    + split; [exact Hdrag|]. intros page f [H|[]]. discriminate H.
    + destruct files as [|file files]; cbn.
      * split; [exact Hdrag|]. intros page f [H|[]]. discriminate H.
      * destruct (handleFileSelect_invariant file _ Hdrag) as [Hst Hnone].
        destruct (InputArea.handleFileSelect file (InputArea.setIsDragging false st))
          as [st' effects]. cbn in *.
        split; [exact Hst|]. intros page f [H|Hin]; [discriminate H|].
        now elim (Hnone page f).
  - unfold InputArea.handleDragOver.
    destruct (negb (InputArea.disabled props) && negb (InputArea.isGenerating props));
      cbn; (split; [now split|]); intros page f [H|[]]; discriminate H.
  - cbn. split; [now split|]. intros page f [H|[]]. discriminate H.
  - unfold InputArea.handleStartScan.
    destruct (InputArea.selectedFile st) as [file|] eqn:Hsel; cbn.
    + split; [exact Hinv|]. intros page f [H|[]]. injection H as <- <-.
      split; [now apply Hfile|exact Hpage].
    + split; [exact Hinv|]. intros page f [].
  - cbn. split; [|intros page f []]. split; [|reflexivity].
    cbn. intros f Hf. discriminate Hf.
  - cbn. split; [|intros page f []]. split; [exact Hfile|].
    cbn. apply or_one_truthy.
Qed.

Lemma run_invariant (parseInt : string -> float) (trace : list (InputArea.Props * InputArea.Action)) :
  forall st,
    input_invariant st ->
    input_invariant (fst (InputArea.run parseInt trace st))
    /\ forall page file,
         In (InputArea.OnGenerate page file) (snd (InputArea.run parseInt trace st)) ->
         InputArea.accepted file = true /\ InputArea.truthy page = true.
Proof.
  induction trace as [|[props a] trace IH]; intros st Hinv.
  - cbn. split; [exact Hinv|]. intros page file [].
  - cbn [InputArea.run].
    destruct (handle_invariant parseInt props a st Hinv) as [Hst Heff].
    destruct (InputArea.handle parseInt props a st) as [st1 effects1]. cbn in Hst, Heff.
    destruct (IH st1 Hst) as [Hst2 Heff2].
    destruct (InputArea.run parseInt trace st1) as [st2 effects2]. cbn in *.
    split; [exact Hst2|]. intros page file Hin.
    apply in_app_or in Hin. destruct Hin as [Hin|Hin]; [now apply Heff|now apply Heff2].
Qed.

(** X10. Whatever events the input area handles, in whatever order and
    under whatever props, starting from its initial state: a selected file
    is an image or a PDF by its type, the page number is neither [NaN] nor
    zero, and every scan it asks for carries such a file and such a page
    number. *)
Theorem input_area_requests_are_well_formed :
  forall (parseInt : string -> float) (trace : list (InputArea.Props * InputArea.Action)),
    let '(st, effects) := InputArea.run parseInt trace InputArea.initial in
    (forall file,
       InputArea.selectedFile st = Some file ->
       String.prefix "image/" (File.type file) = true
       \/ File.type file = "application/pdf")
    /\ InputArea.truthy (InputArea.pageNumber st) = true
    /\ forall page file,
         In (InputArea.OnGenerate page file) effects ->
         (String.prefix "image/" (File.type file) = true
          \/ File.type file = "application/pdf")
         /\ PrimFloat.is_nan page = false
         /\ PrimFloat.is_zero page = false.
Proof.
  intros parseInt trace.
  assert (Hinit : input_invariant InputArea.initial).
  { split; [intros file H; discriminate H|reflexivity]. }
  destruct (run_invariant parseInt trace InputArea.initial Hinit) as [[Hfile Hpage] Heff].
  destruct (InputArea.run parseInt trace InputArea.initial) as [st effects]. cbn in *.
  assert (Hacc : forall file,
             InputArea.accepted file = true ->
             String.prefix "image/" (File.type file) = true
             \/ File.type file = "application/pdf").
  { intros file H. unfold InputArea.accepted in H. apply orb_true_iff in H.
    destruct H as [H|H]; [now left|right; now apply String.eqb_eq]. }
  split; [intros file H; now apply Hacc, Hfile|].
  split; [exact Hpage|].
  intros page file Hin. destruct (Heff page file Hin) as [Ha Ht].
  split; [now apply Hacc|].
  unfold InputArea.truthy in Ht. apply negb_true_iff, orb_false_iff in Ht. exact Ht.
Qed.

(** A rejected file, an accepted one, a page number of zero, a scan: the
    request carries the image and page 1. *)
Example input_area_session :
  forall parseInt : string -> float,
    parseInt "0" = 0%float ->
    InputArea.run parseInt
      [({| InputArea.isGenerating := false; InputArea.disabled := false |},
        InputArea.Drop [notes_txt]);
       ({| InputArea.isGenerating := false; InputArea.disabled := false |},
        InputArea.FileChange [chart_jpg]);
       ({| InputArea.isGenerating := false; InputArea.disabled := false |},
        InputArea.PageChange "0");
       ({| InputArea.isGenerating := false; InputArea.disabled := false |},
        InputArea.StartScan)]
      InputArea.initial
    = ({| InputArea.isDragging := false;
          InputArea.selectedFile := Some chart_jpg;
          InputArea.pageNumber := 1%float |},
       [InputArea.PreventDefault;
        InputArea.Alert "Please upload an image or PDF document.";
        InputArea.OnGenerate 1%float chart_jpg]).
Proof. intros parseInt H. cbn. rewrite H. reflexivity. Qed.

(** ** What a scan sends and shows *)

(** X11. A scan makes at most one remote call and raises at most one
    alert: the one request is the detection request for the payload of the
    rasterised page, issued when and only when rasterisation succeeded;
    nothing is retried. *)
Theorem scan_single_remote_call :
  forall (env : Env.t) (pageNumber : Z) (file : File.t) (s : Session.t),
    exists evs,
      Session.journal (snd (handleScan env pageNumber (Some file) s))
      = (Session.journal s ++ evs)%list
      /\ filter is_remote_call evs
         = match getPageImage env file pageNumber with
           | Done url => [GenerateContent (detection_request (Base64Of url))]
           | _ => []
           end
      /\ (List.length (filter is_alert evs) <= 1)%nat.
Proof.
  intros env pageNumber file s.
  scan_cases env file pageNumber s; rewrite <- ?app_assoc; cbn [app];
    eexists; (split; [reflexivity|]); cbn; split; (reflexivity || lia).
Qed.

(** X12. When the page rasterises and loads and the detector answers a
    well-typed list of N detections, the scan ends with no alert, the page
    image and the N items in the state; the preview then shows N cards, in
    the order of the detections, under the caption that counts N elements,
    and shows the empty notice only if N is zero. *)
Theorem scan_success_shows_items :
  forall (env : Env.t) (pageNumber : Z) (file : File.t) (s : Session.t)
         (url : DataURL) (text : string) (img : HTMLImage.t)
         (ds : list VisualElement.t),
    getPageImage env file pageNumber = Done url ->
    Env.generateContent env (detection_request (Base64Of url)) = Done (Some text) ->
    text <> EmptyString ->
    Env.JSON_parse env text = Some (js_of_detections ds) ->
    load_image url = Done img ->
    let run := handleScan env pageNumber (Some file) s in
    let st := Session.react (snd run) in
    let props := preview_props st in
    fst run = Done tt
    /\ AppState.originalImage st = Some url
    /\ LivePreview.isLoading props = false
    /\ LivePreview.isFocused props = true
    /\ List.length (LivePreview.cards_shown props) = List.length ds
    /\ map ExtractedItem.label (LivePreview.cards_shown props)
       = map (fun d => JString (VisualElement.label d)) ds
    /\ preview_header props = count_text (List.length ds) ++ " Elements Discovered"
    /\ preview_empty_notice props = Nat.eqb (List.length ds) 0
    /\ (exists evs,
          Session.journal (snd run) = (Session.journal s ++ evs)%list
          /\ filter is_alert evs = []).
Proof.
  intros env pageNumber file s url text img ds Hpage Hanswer Htext Hparse Himg.
  cbv zeta.
  destruct text as [|c text]; [now elim Htext|].
  unfold_scan. cbn. rewrite Hpage. cbn. rewrite Hanswer. cbn.
  rewrite Hparse. cbn. rewrite Himg. cbn.
  rewrite extract_items_well_typed. cbn.
  unfold preview_header, preview_empty_notice, LivePreview.cards_shown,
    LivePreview.content. cbn.
  rewrite items_of_length, items_of_labels.
  repeat (split; [reflexivity|]).
  eexists. rewrite <- !app_assoc. cbn [app]. split; reflexivity.
Qed.

(** The chart page: one card, under [1 Elements Discovered]. *)
Lemma scan_success_shows_items_chart :
  let run := handleScan (sample_env (Done (Some chart_text))) 1 (Some chart_jpg)
                        initial_session in
  let st := Session.react (snd run) in
  let props := preview_props st in
  fst run = Done tt
  /\ AppState.originalImage st = Some (ReaderResult chart_jpg)
  /\ LivePreview.isLoading props = false
  /\ LivePreview.isFocused props = true
  /\ List.length (LivePreview.cards_shown props) = 1%nat
  /\ map ExtractedItem.label (LivePreview.cards_shown props) = [JString "Bar Chart"]
  /\ preview_header props = "1 Elements Discovered"
  /\ preview_empty_notice props = false
  /\ (exists evs,
        Session.journal (snd run) = evs /\ filter is_alert evs = []).
Proof.
  refine (scan_success_shows_items (sample_env (Done (Some chart_text))) 1 chart_jpg
            initial_session (ReaderResult chart_jpg) chart_text chart_img [bar_chart]
            eq_refl eq_refl _ eq_refl eq_refl).
  discriminate.
Defined.

(** ** Drops on the input area, under the props [App] passes *)

(** X13. While [App] is scanning or shows the preview, a drop on the input
    area only clears the drag highlight: no file is selected and no alert
    is raised, not even for a file of a rejected type. After a reset the
    input area takes drops again: an accepted file becomes the selection, a
    rejected one raises the alert and leaves the selection as it was. *)
Theorem drop_ignored_while_busy :
  forall (st : AppState.t) (files : list File.t) (input : InputArea.State),
    (AppState.isGenerating st = true \/ AppState.showPreview st = true ->
     InputArea.handleDrop (input_props st) files input
     = (InputArea.setIsDragging false input, [InputArea.PreventDefault]))
    /\ forall (s : Session.t) (file : File.t) (rest : list File.t),
         let idle := input_props (Session.react (snd (handleReset s))) in
         (InputArea.accepted file = true ->
          InputArea.handleDrop idle (file :: rest) input
          = (InputArea.setSelectedFile (Some file) (InputArea.setIsDragging false input),
             [InputArea.PreventDefault]))
         /\ (InputArea.accepted file = false ->
             InputArea.handleDrop idle (file :: rest) input
             = (InputArea.setIsDragging false input,
                [InputArea.PreventDefault;
                 InputArea.Alert "Please upload an image or PDF document."])).
Proof.
  intros st files input. split.
  - intros Hbusy. unfold InputArea.handleDrop, input_props. cbn.
    replace (AppState.showPreview st || AppState.isGenerating st) with true; [reflexivity|].
    symmetry. apply orb_true_iff. tauto.
  - intros s file rest. cbv zeta. split; intros Hacc;
      unfold InputArea.handleDrop, InputArea.handleFileSelect; cbn;
      rewrite Hacc; reflexivity.
Qed.
